(** * SlicerNNUnet: the [Parameter] configuration object

    A shallow embedding of [SlicerNNUNetLib/Parameter.py]: the eight
    user-editable fields, their validation against the model directory,
    the projection to the nnUNet argument list, and the settings
    round-trip through JSON with tagged paths.

    Python exceptions are values of [PyResult]; the file system, the
    settings store and CUDA availability are explicit arguments. *)

From Stdlib Require Import ZArith NArith String Ascii List Bool Lia.
From Stdlib Require Import DecimalString DecimalN DecimalPos DecimalZ.
From Stdlib Require Import Floats.SpecFloat.
From stdpp Require Import base option list strings gmap.

Set Warnings "-register-all".
Local Open Scope string_scope.
Local Open Scope Z_scope.

(** ** Python exceptions and results *)

Inductive PyExn :=
| RuntimeError (msg : string)
| ValueError
| JSONDecodeError          (* a subclass of ValueError *)
| TypeError
| AttributeError
| IndexError
| OSError
| ImportError.

Inductive PyResult (A : Type) :=
| Ret (a : A)
| Raise (e : PyExn).
Arguments Ret {A} a.
Arguments Raise {A} e.

#[global] Instance PyResult_ret : MRet PyResult := @Ret.
#[global] Instance PyResult_bind : MBind PyResult :=
  fun A B f m => match m with Ret a => f a | Raise e => Raise e end.
#[global] Instance PyResult_fmap : FMap PyResult :=
  fun A B f m => match m with Ret a => Ret (f a) | Raise e => Raise e end.

Definition returns {A} (m : PyResult A) : Prop := exists a, m = Ret a.
Definition raises {A} (m : PyResult A) : Prop := exists e, m = Raise e.

(** ** Python strings

    A [string] stands for a Python [str] whose characters are the code
    points 0..255. *)

Module Py.

(** [str.isspace] on one character: TAB..CR, FS..US, space, NEL, NBSP. *)
Definition isspace (c : ascii) : bool :=
  let n := N_of_ascii c in
  ((9 <=? n) && (n <=? 13) || (28 <=? n) && (n <=? 32) || (n =? 133) || (n =? 160))%N.

Definition isdigit (c : ascii) : bool :=
  let n := N_of_ascii c in ((48 <=? n) && (n <=? 57))%N.

Definition digit_val (c : ascii) : N := (N_of_ascii c - 48)%N.

Fixpoint lstrip (s : string) : string :=
  match s with
  | String c r => if isspace c then lstrip r else s
  | EmptyString => EmptyString
  end.

Fixpoint rstrip (s : string) : string :=
  match s with
  | String c r =>
      match rstrip r with
      | EmptyString => if isspace c then EmptyString else String c EmptyString
      | r' => String c r'
      end
  | EmptyString => EmptyString
  end.

(** [s.strip()] *)
Definition strip (s : string) : string := rstrip (lstrip s).

(** [s.split(sep)] for a non-empty [sep]: the fields between the
    non-overlapping occurrences of [sep], scanned from the left.
    [skip] counts the characters of an occurrence still to pass over,
    [cur] is the field read so far. *)
Fixpoint split_go (sep : string) (skip : nat) (cur : string) (s : string) : list string :=
  match s with
  | EmptyString => [cur]
  | String c r =>
      match skip with
      | S k => split_go sep k cur r
      | O =>
          if String.prefix sep s
          then cur :: split_go sep (Nat.pred (String.length sep)) EmptyString r
          else split_go sep O (cur +:+ String c EmptyString) r
      end
  end.

Definition split (sep s : string) : list string := split_go sep O EmptyString s.

(** [sep.join(l)] *)
Fixpoint join (sep : string) (l : list string) : string :=
  match l with
  | [] => EmptyString
  | [x] => x
  | x :: r => x +:+ sep +:+ join sep r
  end.

(** The digits of an [int] literal: decimal digits, single underscores
    allowed between two digits. [prev] tells whether the previous
    character was a digit. *)
Fixpoint int_digits (prev : bool) (acc : N) (s : string) : option N :=
  match s with
  | EmptyString => if prev then Some acc else None
  | String c r =>
      if isdigit c then int_digits true (10 * acc + digit_val c)%N r
      else if (Ascii.eqb c "_" && prev)%bool then int_digits false acc r
      else None
  end.

(** The whitespace [int] drops around a literal: TAB..CR and space,
    and of the characters above 127 those that are spaces (NEL, NBSP).
    Unlike [str.strip], it does not drop FS..US. *)
Definition int_isspace (c : ascii) : bool :=
  let n := N_of_ascii c in
  ((9 <=? n) && (n <=? 13) || (n =? 32) || (n =? 133) || (n =? 160))%N.

Fixpoint int_lstrip (s : string) : string :=
  match s with
  | String c r => if int_isspace c then int_lstrip r else s
  | EmptyString => EmptyString
  end.

Fixpoint int_rstrip (s : string) : string :=
  match s with
  | String c r =>
      match int_rstrip r with
      | EmptyString => if int_isspace c then EmptyString else String c EmptyString
      | r' => String c r'
      end
  | EmptyString => EmptyString
  end.

(** [int(s)] in base 10: surrounding whitespace, an optional sign, digits.
    (The interpreter's limit on the number of digits is not modelled.) *)
Definition int (s : string) : PyResult Z :=
  let of_digits (sign : Z) (t : string) :=
    match int_digits false 0%N t with
    | Some n => Ret (sign * Z.of_N n)
    | None => Raise ValueError
    end in
  match int_rstrip (int_lstrip s) with
  | String "+" t => of_digits 1 t
  | String "-" t => of_digits (-1) t
  | t => of_digits 1 t
  end.

(** Every character of [s] satisfies [P]. *)
Fixpoint all_chars (P : ascii -> bool) (s : string) : bool :=
  match s with
  | EmptyString => true
  | String c r => P c && all_chars P r
  end.

(** [str(z)] for an [int]. *)
Definition str_int (z : Z) : string := NilZero.string_of_int (Z.to_int z).

(** [str(l)] for a list of [int]. *)
Definition str_int_list (l : list Z) : string :=
  "[" +:+ join ", " (map str_int l) +:+ "]".

(** [l[i]], with Python's negative indices. *)
Definition index {A} (l : list A) (i : Z) : PyResult A :=
  let j := if i <? 0 then i + Z.of_nat (length l) else i in
  if j <? 0 then Raise IndexError
  else match l !! Z.to_nat j with
       | Some x => Ret x
       | None => Raise IndexError
       end.

End Py.

(** ** pathlib

    A pure POSIX path as pathlib keeps it: the root ("", "/" or "//")
    and the names after it; "." components and empty components are
    dropped on construction, ".." is kept. *)

Record Path := mkPath { path_root : string; path_names : list string }.

#[global] Instance Path_eq_dec : EqDecision Path.
Proof. solve_decision. Defined.

Definition keep_name (x : string) : bool :=
  negb (String.eqb x "") && negb (String.eqb x ".").

(** The root of a path string: exactly two leading slashes are kept
    as "//", any other number of them is "/". *)
Definition root_of (s : string) : string :=
  match s with
  | String "/" (String "/" (String "/" _)) => "/"
  | String "/" (String "/" _) => "//"
  | String "/" _ => "/"
  | _ => ""
  end.

(** [Path(s)] *)
Definition Path_of_str (s : string) : Path :=
  {| path_root := root_of s;
     path_names := List.filter keep_name (Py.split "/" s) |}.

(** [Path()] is [Path(".")]: the current directory. *)
Definition Path_ : Path := {| path_root := ""; path_names := [] |}.

(** [str(p)], also [p.as_posix()] *)
Definition str_of_Path (p : Path) : string :=
  match path_root p, path_names p with
  | EmptyString, [] => "."
  | r, ns => r +:+ Py.join "/" ns
  end.

Definition as_posix (p : Path) : string := str_of_Path p.

(** [p.parent] *)
Definition parent (p : Path) : Path :=
  {| path_root := path_root p; path_names := removelast (path_names p) |}.

(** [p.name] *)
Definition name (p : Path) : string := List.last (path_names p) "".

(** [p.joinpath(s)] *)
Definition joinpath (p : Path) (s : string) : Path :=
  let q := Path_of_str s in
  if String.eqb (path_root q) "" then
    {| path_root := path_root p; path_names := path_names p ++ path_names q |}
  else q.

(** The names of a path are those [Path(...)] can produce. *)
Definition name_ok (x : string) : bool :=
  keep_name x && Py.all_chars (fun c => negb (Ascii.eqb c "/")) x.

Definition path_wf (p : Path) : bool :=
  (String.eqb (path_root p) "" || String.eqb (path_root p) "/"
   || String.eqb (path_root p) "//")
  && forallb name_ok (path_names p).

(** ** JSON documents *)

Inductive JValue :=
| JNull
| JBool (b : bool)
| JInt (z : Z)
| JFloat (f : spec_float)
| JStr (s : string)
| JArr (l : list JValue)
| JObj (members : list (string * JValue)).

(** A text, as [json.loads] and [bool(...)] see it: the empty text,
    a text [json.loads] rejects, or the serialisation of a JSON value
    (which [json.loads] reads back as that value). *)
Inductive Text :=
| EmptyText
| NotJson
| JsonDoc (v : JValue).

Definition text_truthy (t : Text) : bool :=
  match t with EmptyText => false | _ => true end.

(** The file system, as the code observes it. The queries [exists]
    and [rglob] are taken to answer: an [OSError] of theirs (a name too
    long, a folder that cannot be read) is outside this model. *)
Record FileSystem := {
  (** [p.exists()] *)
  fs_exists : Path -> bool;
  (** the paths [p.rglob(name)] yields, in the order it yields them *)
  fs_rglob : Path -> string -> list Path;
  (** [open(p, "r").read()] *)
  fs_read : Path -> PyResult Text;
}.

(** ** Python values *)

Inductive PyValue :=
| PNone
| PBool (b : bool)
| PInt (z : Z)
| PFloat (f : spec_float)
| PStr (s : string)
| PList (l : list PyValue)
| PDict (d : list (string * PyValue))
| PPath (p : Path).

(** [bool(v)]. A path defines neither [__bool__] nor [__len__]: it is
    always true. *)
Definition truthy (v : PyValue) : bool :=
  match v with
  | PNone => false
  | PBool b => b
  | PInt z => negb (z =? 0)
  | PFloat f => match f with S754_zero _ => false | _ => true end
  | PStr s => negb (String.eqb s "")
  | PList l => match l with [] => false | _ => true end
  | PDict d => match d with [] => false | _ => true end
  | PPath _ => true
  end.

(** A [dict] with [str] keys, in insertion order. *)
Fixpoint dict_set {A} (d : list (string * A)) (k : string) (v : A) : list (string * A) :=
  match d with
  | [] => [(k, v)]
  | (k', v') :: r =>
      if String.eqb k' k then (k', v) :: r else (k', v') :: dict_set r k v
  end.

Fixpoint dict_get {A} (d : list (string * A)) (k : string) : option A :=
  match d with
  | [] => None
  | (k', v) :: r => if String.eqb k' k then Some v else dict_get r k
  end.

(** [dict(pairs)]: a repeated key keeps its first place and its last value. *)
Definition dict_of_pairs {A} (l : list (string * A)) : list (string * A) :=
  fold_left (fun d kv => dict_set d (fst kv) (snd kv)) l [].

(** [v.items()] and [v.get(k)]: only a [dict] has them. *)
Definition items (v : PyValue) : PyResult (list (string * PyValue)) :=
  match v with PDict d => Ret d | _ => Raise AttributeError end.

Definition get (v : PyValue) (k : string) : PyResult PyValue :=
  match v with
  | PDict d => Ret (default PNone (dict_get d k))
  | _ => Raise AttributeError
  end.

(** The runtime's [repr] of floats and strings. *)
Class PyRepr := {
  repr_float : spec_float -> string;
  repr_str : string -> string;
}.

Section Format.
Context `{PyRepr}.

(** [repr(v)] *)
Fixpoint repr (v : PyValue) : string :=
  match v with
  | PNone => "None"
  | PBool b => if b then "True" else "False"
  | PInt z => Py.str_int z
  | PFloat f => repr_float f
  | PStr s => repr_str s
  | PList l => "[" +:+ Py.join ", " (map repr l) +:+ "]"
  | PDict d =>
      "{" +:+ Py.join ", " (map (fun kv => repr_str (fst kv) +:+ ": " +:+ repr (snd kv)) d)
          +:+ "}"
  | PPath p => "PosixPath(" +:+ repr_str (str_of_Path p) +:+ ")"
  end.

(** [str(v)], which an f-string applies to [{v}] *)
Definition str (v : PyValue) : string :=
  match v with
  | PStr s => s
  | PPath p => str_of_Path p
  | _ => repr v
  end.

End Format.

(** ** json.loads and json.dumps *)

(** [json.loads(t, object_hook=hook)] on the value the text denotes:
    every object becomes [dict(pairs)] and is passed through [hook],
    innermost first. *)
Fixpoint decode (hook : list (string * PyValue) -> PyResult PyValue) (v : JValue)
  : PyResult PyValue :=
  match v with
  | JNull => Ret PNone
  | JBool b => Ret (PBool b)
  | JInt z => Ret (PInt z)
  | JFloat f => Ret (PFloat f)
  | JStr s => Ret (PStr s)
  | JArr l => l' ← mapM (decode hook) l; Ret (PList l')
  | JObj ms =>
      pairs ← mapM (fun kv => v' ← decode hook (snd kv); Ret (fst kv, v')) ms;
      hook (dict_of_pairs pairs)
  end.

Definition json_loads_hook (hook : list (string * PyValue) -> PyResult PyValue) (t : Text)
  : PyResult PyValue :=
  match t with
  | JsonDoc v => decode hook v
  | _ => Raise JSONDecodeError
  end.

(** [json.loads(t)] *)
Definition json_loads (t : Text) : PyResult PyValue :=
  json_loads_hook (fun d => Ret (PDict d)) t.

(** [json.dumps] of the values JSON has; [other] encodes the rest. *)
Fixpoint encode (other : PyValue -> PyResult JValue) (v : PyValue) : PyResult JValue :=
  match v with
  | PNone => Ret JNull
  | PBool b => Ret (JBool b)
  | PInt z => Ret (JInt z)
  | PFloat f => Ret (JFloat f)
  | PStr s => Ret (JStr s)
  | PList l => l' ← mapM (encode other) l; Ret (JArr l')
  | PDict d =>
      ms ← mapM (fun kv => v' ← encode other (snd kv); Ret (fst kv, v')) d;
      Ret (JObj ms)
  | PPath _ => other v
  end.

(** [json.JSONEncoder.default] *)
Definition JSONEncoder_default (v : PyValue) : PyResult PyValue := Raise TypeError.

(** [json.dumps(v, cls=C)] where [C.default] is [dflt]: an object JSON
    does not have is replaced by [dflt] of it, which is encoded in turn.
    (Here the replacement holds JSON values only.) *)
Definition json_dumps (dflt : PyValue -> PyResult PyValue) (v : PyValue) : PyResult Text :=
  j ← encode (fun o => o' ← dflt o; encode (fun _ => Raise TypeError) o') v;
  Ret (JsonDoc j).

(** [f] on the value of a key-value pair. *)
Definition on_snd {K A B} (f : A -> B) (kv : K * A) : K * B := (fst kv, f (snd kv)).

(** What [json.loads(t)] returns for the text of [v]: decoding without
    a hook cannot fail (lemma [decode_plain]). *)
Fixpoint to_py (v : JValue) : PyValue :=
  match v with
  | JNull => PNone
  | JBool b => PBool b
  | JInt z => PInt z
  | JFloat f => PFloat f
  | JStr s => PStr s
  | JArr l => PList (map to_py l)
  | JObj ms => PDict (dict_of_pairs (map (on_snd to_py) ms))
  end.

(** The value a repeated key ends up with: that of its last occurrence. *)
Fixpoint last_value {A} (l : list (string * A)) (k : string) : option A :=
  match l with
  | [] => None
  | (k', v) :: r =>
      match last_value r k with
      | Some w => Some w
      | None => if String.eqb k' k then Some v else None
      end
  end.

(** Induction on JSON values, through the lists of arrays and objects. *)
Section JValue_induction.

Variable P : JValue -> Prop.
Hypothesis HNull : P JNull.
Hypothesis HBool : forall b, P (JBool b).
Hypothesis HInt : forall z, P (JInt z).
Hypothesis HFloat : forall f, P (JFloat f).
Hypothesis HStr : forall s, P (JStr s).
Hypothesis HArr : forall l, Forall P l -> P (JArr l).
Hypothesis HObj : forall ms, Forall (fun kv => P (snd kv)) ms -> P (JObj ms).

Fixpoint JValue_nested_ind (v : JValue) : P v :=
  match v with
  | JNull => HNull
  | JBool b => HBool b
  | JInt z => HInt z
  | JFloat f => HFloat f
  | JStr s => HStr s
  | JArr l =>
      HArr l ((fix go (l : list JValue) : Forall P l :=
                 match l with
                 | [] => List.Forall_nil P
                 | x :: r => @List.Forall_cons _ P x r (JValue_nested_ind x) (go r)
                 end) l)
  | JObj ms =>
      HObj ms ((fix go (ms : list (string * JValue)) : Forall (fun kv => P (snd kv)) ms :=
                  match ms with
                  | [] => List.Forall_nil _
                  | kv :: r => @List.Forall_cons _ _ kv r (JValue_nested_ind (snd kv)) (go r)
                  end) ms)
  end.

End JValue_induction.

(** ** _PathEncoder *)

Module _PathEncoder.

Definition default (obj : PyValue) : PyResult PyValue :=
  match obj with
  | PPath p => Ret (PDict [("_path", PStr (str_of_Path p))])
  | _ => JSONEncoder_default obj
  end.

(** [Path(x)] takes a [str] or a path; anything else is a [TypeError]. *)
Definition decodePath (obj : list (string * PyValue)) : PyResult PyValue :=
  match dict_get obj "_path" with
  | Some (PStr s) => Ret (PPath (Path_of_str s))
  | Some (PPath p) => Ret (PPath p)
  | Some _ => Raise TypeError
  | None => Ret (PDict obj)
  end.

End _PathEncoder.

(** ** The configuration object *)

(** The class [Parameter] of the source ([Parameter] is a reserved word
    here, so the record takes the name the specification gives it). *)
Record InferenceParameters := mkParameter {
  folds : string;
  device : string;
  stepSize : spec_float;
  disableTta : bool;
  nProcessPreprocessing : Z;
  nProcessSegmentationExport : Z;
  checkPointName : string;
  modelPath : Path;
}.

(** The float 0.5 *)
Definition float_half : spec_float := S754_finite false 4503599627370496 (-53).

(** [Parameter()]: the defaults of the dataclass. *)
Definition defaults : InferenceParameters :=
  {| folds := ""; device := "cuda"; stepSize := float_half; disableTta := true;
     nProcessPreprocessing := 1; nProcessSegmentationExport := 1;
     checkPointName := ""; modelPath := Path_ |}.

(** [instance.setValue(k, v)], which the host application's
    [parameterPack] decorator gives the class: [setValue instance k v]
    is the instance after the assignment, or the exception the pack
    raises, the instance being unchanged when it raises. *)
Class ParameterPack := {
  setValue : InferenceParameters -> string -> PyValue -> PyResult InferenceParameters;
}.

(** The settings objects: the one passed in, if any, and the one
    [qt.QSettings()] opens (the application's default file). *)
Record QtSettings := {
  passed : option (gmap string Text);
  application : gmap string Text;
}.

Definition nl : string := String (ascii_of_nat 10) EmptyString.

Section Methods.

Variable fs : FileSystem.
Variable self : InferenceParameters.

Definition asDict : list (string * PyValue) :=
  [ ("folds", PStr (folds self));
    ("device", PStr (device self));
    ("stepSize", PFloat (stepSize self));
    ("disableTta", PBool (disableTta self));
    ("nProcessPreprocessing", PInt (nProcessPreprocessing self));
    ("nProcessSegmentationExport", PInt (nProcessSegmentationExport self));
    ("checkPointName", PStr (checkPointName self));
    ("modelPath", PPath (modelPath self)) ].

Definition _defaultSettingsKey : string := "SlicerNNUNet/Parameter".

Definition _getCheckpointName : string :=
  if truthy (PStr (checkPointName self)) then checkPointName self
  else "checkpoint_final.pth".

(** [next(...)] of an iterator that yields nothing raises
    [StopIteration], which the property turns into [None]. *)
Definition _datasetPath : option Path :=
  if truthy (PPath (modelPath self))
  then head (fs_rglob fs (modelPath self) "dataset.json")
  else None.

Definition _isDatasetPathValid : bool :=
  match _datasetPath with Some _ => true | None => false end.

Definition _foldsAsList : PyResult (list Z) :=
  if truthy (PStr (folds self))
  then mapM Py.int (Py.split "," (Py.strip (folds self)))
  else Ret [0].

(** [None.parent] is an [AttributeError]. *)
Definition _configurationFolder : PyResult Path :=
  match _datasetPath with
  | Some d => Ret (parent d)
  | None => Raise AttributeError
  end.

Definition _datasetFolder : PyResult Path := parent <$> _configurationFolder.

Definition _datasetName : PyResult string := name <$> _datasetFolder.

Definition modelFolder : PyResult Path := parent <$> _datasetFolder.

Definition _configurationNameParts : PyResult (list string) :=
  (fun c => Py.split "__" (name c)) <$> _configurationFolder.

Definition _getFoldPaths : PyResult (list (Z * Path)) :=
  fl ← _foldsAsList;
  mapM (fun fold =>
          c ← _configurationFolder;
          Ret (fold, joinpath c ("fold_" +:+ Py.str_int fold))) fl.

Definition _getMissingFolds : PyResult (list Z) :=
  fps ← _getFoldPaths;
  Ret (map fst (List.filter (fun fp => negb (fs_exists fs (snd fp))) fps)).

Definition _getFoldsWithInvalidWeights : PyResult (list Z) :=
  fps ← _getFoldPaths;
  Ret (map fst
         (List.filter
            (fun fp => negb (fs_exists fs (joinpath (snd fp) _getCheckpointName))) fps)).

Definition reason_dataset : string :=
  "Dataset.json file is missing. Provided model dir :" +:+ nl
    +:+ str_of_Path (modelPath self).

Definition reason_folds (missing_folds : list Z) : string :=
  "Model folder is missing the following folds : "
    +:+ Py.str_int_list missing_folds +:+ ".".

Definition reason_weights (folds_with_invalid_weights : list Z) : string :=
  "Following model folds don't contain " +:+ checkPointName self +:+ " weights : "
    +:+ Py.str_int_list folds_with_invalid_weights +:+ ".".

Definition reason_name : string :=
  "Invalid nnUNet configuration folder."
    +:+ "  Expected folder name such as <trainer_name>__<plan_name>__<conf_name>".

Definition isValid : PyResult (bool * string) :=
  if negb _isDatasetPathValid then Ret (false, reason_dataset)
  else
    missing_folds ← _getMissingFolds;
    if truthy (PList (map PInt missing_folds))
    then Ret (false, reason_folds missing_folds)
    else
      folds_with_invalid_weights ← _getFoldsWithInvalidWeights;
      if truthy (PList (map PInt folds_with_invalid_weights))
      then Ret (false, reason_weights folds_with_invalid_weights)
      else
        parts ← _configurationNameParts;
        if negb (length parts =? 3)%nat then Ret (false, reason_name)
        else Ret (true, "").

(** [asArgList] after its first line, [import torch], has succeeded;
    [torch.cuda.is_available()] is the argument [cuda_is_available].
    ([asArgList_importing] below starts from the import.) *)
Definition asArgList (cuda_is_available : bool) (inDir outDir : Path)
  : PyResult (list PyValue) :=
  v ← isValid;
  if negb (fst v)
  then Raise (RuntimeError ("Invalid nnUNet configuration. " +:+ snd v))
  else
    let device := if cuda_is_available then device self else "cpu" in
    dataset ← _datasetName;
    tr ← (parts ← _configurationNameParts; Py.index parts 0);
    pl ← (parts ← _configurationNameParts; Py.index parts 1);
    cf ← (parts ← _configurationNameParts; Py.index parts (-1));
    fl ← _foldsAsList;
    let args :=
      ([ PStr "-i"; PStr (as_posix inDir);
        PStr "-o"; PStr (as_posix outDir);
        PStr "-d"; PStr dataset;
        PStr "-tr"; PStr tr;
        PStr "-p"; PStr pl;
        PStr "-c"; PStr cf;
        PStr "-f" ]
      ++ map (fun f => PStr (Py.str_int f)) fl
      ++ [ PStr "-npp"; PInt (nProcessPreprocessing self);
           PStr "-nps"; PInt (nProcessSegmentationExport self);
           PStr "-step_size"; PFloat (stepSize self);
           PStr "-device"; PStr device;
           PStr "-chk"; PStr _getCheckpointName ])%list in
    Ret (if disableTta self then (args ++ [PStr "--disable_tta"])%list else args).

Definition readSegmentIdsAndLabelsFromDatasetFile `{PyRepr}
  : PyResult (option (list (string * string))) :=
  if negb _isDatasetPathValid then Ret None
  else
    match _datasetPath with
    | None => Raise TypeError            (* [open(None)] *)
    | Some d =>
        text ← fs_read fs d;
        dataset_dict ← json_loads text;
        labels ← get dataset_dict "labels";
        kvs ← items labels;
        Ret (Some (map (fun kv => ("Segment_" +:+ str (snd kv), fst kv)) kvs))
    end.

(** [settings.setValue(key, text)] followed by [settings.sync()], on
    [settings or qt.QSettings()]. *)
Definition toSettings (settings : QtSettings) (key : string) : PyResult QtSettings :=
  let key := if truthy (PStr key) then key else _defaultSettingsKey in
  text ← json_dumps _PathEncoder.default (PDict asDict);
  Ret (match passed settings with
       | Some s => {| passed := Some (<[key := text]> s);
                      application := application settings |}
       | None => {| passed := None;
                    application := <[key := text]> (application settings) |}
       end).

End Methods.

Section Restore.
Context `{ParameterPack}.

(** The loop of [fromSettings]: a [TypeError] of [setValue] skips the
    entry, any other exception leaves the loop. *)
Fixpoint restore (instance : InferenceParameters) (kvs : list (string * PyValue))
  : PyResult InferenceParameters :=
  match kvs with
  | [] => Ret instance
  | (k, v) :: r =>
      match setValue instance k v with
      | Ret instance' => restore instance' r
      | Raise TypeError => restore instance r
      | Raise e => Raise e
      end
  end.

Definition fromSettings (settings : QtSettings) (key : string) : PyResult InferenceParameters :=
  let key := if truthy (PStr key) then key else _defaultSettingsKey in
  let store := match passed settings with Some s => s | None => application settings end in
  let val := default EmptyText (store !! key) in
  val_dict ← (if text_truthy val
              then json_loads_hook _PathEncoder.decodePath val
              else Ret (PDict []));
  kvs ← items val_dict;
  restore defaults kvs.

End Restore.

(** ** Instances used in the examples *)

(** A file system given by its entries, in the order [rglob] walks
    them: a directory ([None]) or a file with its text. *)
Fixpoint strict_prefix (a b : list string) : bool :=
  match a, b with
  | [], _ :: _ => true
  | x :: a', y :: b' => String.eqb x y && strict_prefix a' b'
  | _, _ => false
  end.

Definition is_under (top p : Path) : bool :=
  String.eqb (path_root top) (path_root p)
  && strict_prefix (path_names top) (path_names p).

Definition listed_fs (entries : list (Path * option Text)) : FileSystem :=
  {| fs_exists := fun p => existsb (fun e => bool_decide (fst e = p)) entries;
     fs_rglob := fun top pattern =>
       List.filter (fun q => is_under top q && String.eqb (name q) pattern)
                   (map fst entries);
     fs_read := fun p =>
       match List.find (fun e => bool_decide (fst e = p)) entries with
       | Some (_, Some t) => Ret t
       | _ => Raise OSError
       end |}.

(** A parameter pack that checks the type of the value ([TypeError])
    and then the annotation of the field ([ValueError]); [unknown] is
    what it raises for a name that is not a field. *)
Definition float_zero : spec_float := S754_zero false.
Definition float_one : spec_float := S754_finite false 4503599627370496 (-52).

Definition checked_setValue (unknown : PyExn)
    (instance : InferenceParameters) (k : string) (v : PyValue)
  : PyResult InferenceParameters :=
  let i := instance in
  if String.eqb k "folds" then
    match v with
    | PStr s => Ret (mkParameter s (device i) (stepSize i) (disableTta i)
                       (nProcessPreprocessing i) (nProcessSegmentationExport i)
                       (checkPointName i) (modelPath i))
    | _ => Raise TypeError
    end
  else if String.eqb k "device" then
    match v with
    | PStr s =>
        if existsb (String.eqb s) ["cuda"; "cpu"; "mps"]
        then Ret (mkParameter (folds i) s (stepSize i) (disableTta i)
                    (nProcessPreprocessing i) (nProcessSegmentationExport i)
                    (checkPointName i) (modelPath i))
        else Raise ValueError
    | _ => Raise TypeError
    end
  else if String.eqb k "stepSize" then
    match v with
    | PFloat f =>
        if SFleb float_zero f && SFleb f float_one
        then Ret (mkParameter (folds i) (device i) f (disableTta i)
                    (nProcessPreprocessing i) (nProcessSegmentationExport i)
                    (checkPointName i) (modelPath i))
        else Raise ValueError
    | _ => Raise TypeError
    end
  else if String.eqb k "disableTta" then
    match v with
    | PBool b => Ret (mkParameter (folds i) (device i) (stepSize i) b
                        (nProcessPreprocessing i) (nProcessSegmentationExport i)
                        (checkPointName i) (modelPath i))
    | _ => Raise TypeError
    end
  else if String.eqb k "nProcessPreprocessing" then
    match v with
    | PInt z =>
        if (1 <=? z) && (z <=? 999)
        then Ret (mkParameter (folds i) (device i) (stepSize i) (disableTta i)
                    z (nProcessSegmentationExport i)
                    (checkPointName i) (modelPath i))
        else Raise ValueError
    | _ => Raise TypeError
    end
  else if String.eqb k "nProcessSegmentationExport" then
    match v with
    | PInt z =>
        if (1 <=? z) && (z <=? 999)
        then Ret (mkParameter (folds i) (device i) (stepSize i) (disableTta i)
                    (nProcessPreprocessing i) z
                    (checkPointName i) (modelPath i))
        else Raise ValueError
    | _ => Raise TypeError
    end
  else if String.eqb k "checkPointName" then
    match v with
    | PStr s => Ret (mkParameter (folds i) (device i) (stepSize i) (disableTta i)
                       (nProcessPreprocessing i) (nProcessSegmentationExport i)
                       s (modelPath i))
    | _ => Raise TypeError
    end
  else if String.eqb k "modelPath" then
    match v with
    | PPath p => Ret (mkParameter (folds i) (device i) (stepSize i) (disableTta i)
                        (nProcessPreprocessing i) (nProcessSegmentationExport i)
                        (checkPointName i) p)
    | _ => Raise TypeError
    end
  else Raise unknown.

Definition checkedPack (unknown : PyExn) : ParameterPack :=
  {| setValue := checked_setValue unknown |}.

(** A runtime for examples that format neither a float nor a string
    inside a container. *)
Definition sample_repr : PyRepr :=
  {| repr_float := fun _ => "<float>";
     repr_str := fun s => "'" +:+ s +:+ "'" |}.

(** A model directory
    [models/Dataset001_Bones/nnUNetTrainer__nnUNetPlans__3d_fullres]
    with folds 0 and 1; fold 1 has no weights. *)
Definition conf_dir : Path :=
  Path_of_str "models/Dataset001_Bones/nnUNetTrainer__nnUNetPlans__3d_fullres".

Definition labels_doc : Text :=
  JsonDoc (JObj [("labels", JObj [("bone", JInt 1); ("liver", JInt 2)])]).

Definition sample_entries (dataset : Text) : list (Path * option Text) :=
  [ (Path_of_str "models", None);
    (Path_of_str "models/Dataset001_Bones", None);
    (conf_dir, None);
    (joinpath conf_dir "dataset.json", Some dataset);
    (joinpath conf_dir "fold_0", None);
    (joinpath conf_dir "fold_0/checkpoint_final.pth", Some NotJson);
    (joinpath conf_dir "fold_1", None) ].

Definition sample_fs : FileSystem := listed_fs (sample_entries labels_doc).

Definition with_model (folds_text : string) (model : string) : InferenceParameters :=
  mkParameter folds_text "cuda" float_half true 1 1 "" (Path_of_str model).

(** [self.device = dev] *)
Definition set_device (self : InferenceParameters) (dev : string) : InferenceParameters :=
  mkParameter (folds self) dev (stepSize self) (disableTta self)
    (nProcessPreprocessing self) (nProcessSegmentationExport self)
    (checkPointName self) (modelPath self).

(** The end of the argument list, from the device flag on. *)
Definition device_arguments (self : InferenceParameters) (dev : string) : list PyValue :=
  [PStr "-device"; PStr dev; PStr "-chk"; PStr (_getCheckpointName self)]
  ++ (if disableTta self then [PStr "--disable_tta"] else []).

(** The folds text of a list of fold indices: their decimal numerals,
    separated by commas. *)
Definition folds_text (l : list N) : string :=
  Py.join "," (map (fun n => Py.str_int (Z.of_N n)) l).

(** ** The settings round-trip, as the specification words it *)

(** The JSON object [toSettings] writes: the eight fields, the path
    tagged as an object with the single member "_path". *)
Definition settings_doc (self : InferenceParameters) : JValue :=
  JObj [ ("folds", JStr (folds self));
         ("device", JStr (device self));
         ("stepSize", JFloat (stepSize self));
         ("disableTta", JBool (disableTta self));
         ("nProcessPreprocessing", JInt (nProcessPreprocessing self));
         ("nProcessSegmentationExport", JInt (nProcessSegmentationExport self));
         ("checkPointName", JStr (checkPointName self));
         ("modelPath", JObj [("_path", JStr (str_of_Path (modelPath self)))]) ].

(** The text stored under [key] (the default key when [key] is empty)
    in the settings object that is used. *)
Definition stored_text (settings : QtSettings) (key : string) : option Text :=
  match passed settings with Some s => s | None => application settings end
    !! (if String.eqb key "" then _defaultSettingsKey else key).

Section Packs.
Context `{ParameterPack}.

(** The parameter pack takes each field value of [self]: assigning it
    to any instance succeeds and changes that field only. *)
Definition pack_accepts (self : InferenceParameters) : Prop :=
  forall i : InferenceParameters,
    setValue i "folds" (PStr (folds self))
    = Ret (mkParameter (folds self) (device i) (stepSize i) (disableTta i)
             (nProcessPreprocessing i) (nProcessSegmentationExport i)
             (checkPointName i) (modelPath i))
    /\ setValue i "device" (PStr (device self))
       = Ret (mkParameter (folds i) (device self) (stepSize i) (disableTta i)
                (nProcessPreprocessing i) (nProcessSegmentationExport i)
                (checkPointName i) (modelPath i))
    /\ setValue i "stepSize" (PFloat (stepSize self))
       = Ret (mkParameter (folds i) (device i) (stepSize self) (disableTta i)
                (nProcessPreprocessing i) (nProcessSegmentationExport i)
                (checkPointName i) (modelPath i))
    /\ setValue i "disableTta" (PBool (disableTta self))
       = Ret (mkParameter (folds i) (device i) (stepSize i) (disableTta self)
                (nProcessPreprocessing i) (nProcessSegmentationExport i)
                (checkPointName i) (modelPath i))
    /\ setValue i "nProcessPreprocessing" (PInt (nProcessPreprocessing self))
       = Ret (mkParameter (folds i) (device i) (stepSize i) (disableTta i)
                (nProcessPreprocessing self) (nProcessSegmentationExport i)
                (checkPointName i) (modelPath i))
    /\ setValue i "nProcessSegmentationExport" (PInt (nProcessSegmentationExport self))
       = Ret (mkParameter (folds i) (device i) (stepSize i) (disableTta i)
                (nProcessPreprocessing i) (nProcessSegmentationExport self)
                (checkPointName i) (modelPath i))
    /\ setValue i "checkPointName" (PStr (checkPointName self))
       = Ret (mkParameter (folds i) (device i) (stepSize i) (disableTta i)
                (nProcessPreprocessing i) (nProcessSegmentationExport i)
                (checkPointName self) (modelPath i))
    /\ setValue i "modelPath" (PPath (modelPath self))
       = Ret (mkParameter (folds i) (device i) (stepSize i) (disableTta i)
                (nProcessPreprocessing i) (nProcessSegmentationExport i)
                (checkPointName i) (modelPath self)).

(** Best-effort restoration: an entry that cannot be assigned is
    skipped, the instance staying as it was. *)
Fixpoint restore_skipping (instance : InferenceParameters) (kvs : list (string * PyValue))
  : InferenceParameters :=
  match kvs with
  | [] => instance
  | (k, v) :: r =>
      match setValue instance k v with
      | Ret instance' => restore_skipping instance' r
      | Raise _ => restore_skipping instance r
      end
  end.

End Packs.

(** ** The checks of [isValid], as the specification lists them *)

Section Checks.

Variable fs : FileSystem.
Variable self : InferenceParameters.

(** The checkpoint file name: [checkPointName], or
    "checkpoint_final.pth" when [checkPointName] is empty. *)
Definition checkpoint_name : string :=
  if String.eqb (checkPointName self) "" then "checkpoint_final.pth"
  else checkPointName self.

(** The fold folder of fold [i]: configuration folder / fold_<i>. *)
Definition fold_folder (conf : Path) (i : Z) : Path :=
  joinpath conf ("fold_" +:+ Py.str_int i).

Definition fold_missing (conf : Path) (i : Z) : bool :=
  negb (fs_exists fs (fold_folder conf i)).

Definition weights_missing (conf : Path) (i : Z) : bool :=
  negb (fs_exists fs (joinpath (fold_folder conf i) checkpoint_name)).

(** The four checks in their order, each with its reason, for the
    dataset file found (if any) and the requested folds. *)
Definition checks_in_order (dataset : option Path) (requested : list Z) : bool * string :=
  match dataset with
  | None => (false, reason_dataset self)
  | Some d =>
      let conf := parent d in
      match List.filter (fold_missing conf) requested with
      | (_ :: _) as missing => (false, reason_folds missing)
      | [] =>
          match List.filter (weights_missing conf) requested with
          | (_ :: _) as invalid => (false, reason_weights self invalid)
          | [] =>
              if (length (Py.split "__" (name conf)) =? 3)%nat then (true, "")
              else (false, reason_name)
          end
      end
  end.

(** All four checks pass: the dataset file is found, the folds text
    decodes, every requested fold has its folder and its checkpoint
    file, and the configuration folder name has three parts. *)
Definition all_checks_pass : Prop :=
  exists d requested,
    head (fs_rglob fs (modelPath self) "dataset.json") = Some d
    /\ _foldsAsList self = Ret requested
    /\ (forall i, In i requested ->
          fs_exists fs (fold_folder (parent d) i) = true
          /\ fs_exists fs (joinpath (fold_folder (parent d) i) checkpoint_name) = true)
    /\ length (Py.split "__" (name (parent d))) = 3%nat.

End Checks.

(** The same model directory with a configuration folder whose name
    has two parts only. *)
Definition short_conf_dir : Path :=
  Path_of_str "models/Dataset001_Bones/nnUNetTrainer__3d_fullres".

Definition short_name_fs : FileSystem :=
  listed_fs
    [ (Path_of_str "models", None);
      (Path_of_str "models/Dataset001_Bones", None);
      (short_conf_dir, None);
      (joinpath short_conf_dir "dataset.json", Some labels_doc);
      (joinpath short_conf_dir "fold_0", None);
      (joinpath short_conf_dir "fold_0/checkpoint_final.pth", Some NotJson) ].

(** The sample directory with a dataset file that has no "labels". *)
Definition unlabelled_fs : FileSystem :=
  listed_fs (sample_entries (JsonDoc (JObj [("name", JStr "Bones")]))).

(** Settings objects for the examples: nothing passed in, and the
    application's file empty or holding one text under the default key. *)
Definition fresh_settings : QtSettings := {| passed := None; application := ∅ |}.

Definition settings_holding (t : Text) : QtSettings :=
  {| passed := None; application := {[ "SlicerNNUNet/Parameter" := t ]} |}.

(** A stored object with a known field, an unknown key and a field of
    the wrong type. *)
Definition partial_doc : JValue :=
  JObj [ ("folds", JStr "1"); ("colour", JInt 3); ("stepSize", JStr "fast") ].

(** ** Field assignments and further wording used by the properties *)

(** [self.folds = text] *)
Definition set_folds (self : InferenceParameters) (text : string) : InferenceParameters :=
  mkParameter text (device self) (stepSize self) (disableTta self)
    (nProcessPreprocessing self) (nProcessSegmentationExport self)
    (checkPointName self) (modelPath self).

(** [self.disableTta = b] *)
Definition set_disableTta (self : InferenceParameters) (b : bool) : InferenceParameters :=
  mkParameter (folds self) (device self) (stepSize self) b
    (nProcessPreprocessing self) (nProcessSegmentationExport self)
    (checkPointName self) (modelPath self).

(** The arguments before the device flag, for the dataset name, the
    three parts of the configuration name and the requested folds. *)
Definition leading_arguments (self : InferenceParameters) (inDir outDir : Path)
    (dataset tr pl cf : string) (requested : list Z) : list PyValue :=
  [ PStr "-i"; PStr (as_posix inDir);
    PStr "-o"; PStr (as_posix outDir);
    PStr "-d"; PStr dataset;
    PStr "-tr"; PStr tr; PStr "-p"; PStr pl; PStr "-c"; PStr cf;
    PStr "-f" ]
  ++ map (fun f => PStr (Py.str_int f)) requested
  ++ [ PStr "-npp"; PInt (nProcessPreprocessing self);
       PStr "-nps"; PInt (nProcessSegmentationExport self);
       PStr "-step_size"; PFloat (stepSize self) ].

(** A part of a configuration folder name: every underscore in it is
    followed by a character that is not an underscore. *)
Fixpoint part_ok (s : string) : bool :=
  match s with
  | EmptyString => true
  | String a r =>
      if Ascii.eqb a "_"
      then match r with
           | String b _ => negb (Ascii.eqb b "_") && part_ok r
           | EmptyString => false
           end
      else part_ok r
  end.

(** The characters of [str(z)]: digits and the minus sign. *)
Definition numeral_char (a : ascii) : bool := Py.isdigit a || Ascii.eqb a "-".

(** ** The path encoder on arbitrary values *)

(** The JSON value [json.dumps(v, cls=_PathEncoder)] writes: a path
    becomes the object with the single member "_path". *)
Fixpoint tagged (v : PyValue) : JValue :=
  match v with
  | PNone => JNull
  | PBool b => JBool b
  | PInt z => JInt z
  | PFloat f => JFloat f
  | PStr s => JStr s
  | PList l => JArr (map tagged l)
  | PDict d => JObj (map (on_snd tagged) d)
  | PPath p => JObj [("_path", JStr (str_of_Path p))]
  end.

Fixpoint nodup_keys (ks : list string) : bool :=
  match ks with
  | [] => true
  | k :: r => negb (existsb (String.eqb k) r) && nodup_keys r
  end.

(** A value that can be told from its tagged form: its dicts have
    distinct keys, none of them "_path", and its paths are ones
    [Path(...)] can produce. *)
Fixpoint taggable (v : PyValue) : bool :=
  match v with
  | PList l => forallb taggable l
  | PDict d =>
      nodup_keys (map fst d)
      && negb (existsb (String.eqb "_path") (map fst d))
      && forallb (fun kv => taggable (snd kv)) d
  | PPath p => path_wf p
  | _ => true
  end.

(** Induction on Python values, through the lists and dicts. *)
Section PyValue_induction.

Variable P : PyValue -> Prop.
Hypothesis HNone : P PNone.
Hypothesis HBool : forall b, P (PBool b).
Hypothesis HInt : forall z, P (PInt z).
Hypothesis HFloat : forall f, P (PFloat f).
Hypothesis HStr : forall s, P (PStr s).
Hypothesis HList : forall l, Forall P l -> P (PList l).
Hypothesis HDict : forall d, Forall (fun kv => P (snd kv)) d -> P (PDict d).
Hypothesis HPath : forall p, P (PPath p).

Fixpoint PyValue_nested_ind (v : PyValue) : P v :=
  match v with
  | PNone => HNone
  | PBool b => HBool b
  | PInt z => HInt z
  | PFloat f => HFloat f
  | PStr s => HStr s
  | PList l =>
      HList l ((fix go (l : list PyValue) : Forall P l :=
                  match l with
                  | [] => List.Forall_nil P
                  | x :: r => @List.Forall_cons _ P x r (PyValue_nested_ind x) (go r)
                  end) l)
  | PDict d =>
      HDict d ((fix go (d : list (string * PyValue)) : Forall (fun kv => P (snd kv)) d :=
                  match d with
                  | [] => List.Forall_nil _
                  | kv :: r => @List.Forall_cons _ _ kv r (PyValue_nested_ind (snd kv)) (go r)
                  end) d)
  | PPath p => HPath p
  end.

End PyValue_induction.

(** ** Settings keys and partial data *)

(** [key or self._defaultSettingsKey()] *)
Definition settings_key (key : string) : string :=
  if String.eqb key "" then _defaultSettingsKey else key.

Definition has_key (k : string) (keys : list string) : bool := existsb (String.eqb k) keys.

(** The instance [i] with the fields named in [keys] taken from [self]. *)
Definition restored_from (i self : InferenceParameters) (keys : list string)
  : InferenceParameters :=
  mkParameter
    (if has_key "folds" keys then folds self else folds i)
    (if has_key "device" keys then device self else device i)
    (if has_key "stepSize" keys then stepSize self else stepSize i)
    (if has_key "disableTta" keys then disableTta self else disableTta i)
    (if has_key "nProcessPreprocessing" keys
     then nProcessPreprocessing self else nProcessPreprocessing i)
    (if has_key "nProcessSegmentationExport" keys
     then nProcessSegmentationExport self else nProcessSegmentationExport i)
    (if has_key "checkPointName" keys then checkPointName self else checkPointName i)
    (if has_key "modelPath" keys then modelPath self else modelPath i).

(** ** Check 3 and the device, as the specification words them *)







(** The machine, in the words of the specification: GPU acceleration
    is available when CUDA is, or when MPS is (the third device the
    class offers). *)
Record Machine := { has_cuda : bool; has_mps : bool }.

Definition gpu_acceleration (m : Machine) : bool := has_cuda m || has_mps m.

(** The argument that follows the first occurrence of [flag]. *)
Fixpoint value_after (flag : string) (args : list PyValue) : option PyValue :=
  match args with
  | [] => None
  | a :: r =>
      match a, r with
      | PStr s, v :: _ => if String.eqb s flag then Some v else value_after flag r
      | _, _ => value_after flag r
      end
  end.

(** [asArgList] from its first line: [import torch] raises
    [ImportError] when torch is not installed ([None]); otherwise
    [torch.cuda.is_available()] is the boolean given. *)
Definition asArgList_importing (torch : option bool)
    (fs : FileSystem) (self : InferenceParameters) (inDir outDir : Path)
  : PyResult (list PyValue) :=
  match torch with
  | None => Raise ImportError
  | Some cuda_is_available => asArgList fs self cuda_is_available inDir outDir
  end.

(** * Properties *)

(** ** Evaluation on the sample directory *)

Example split_ex1 : Py.split "__" "nnUNetTrainer__nnUNetPlans__3d_fullres"
                    = ["nnUNetTrainer"; "nnUNetPlans"; "3d_fullres"].
Proof. reflexivity. Qed.
Example split_ex2 : Py.split "," "0,1,,2," = ["0"; "1"; ""; "2"; ""].
Proof. reflexivity. Qed.
Example split_ex3 : Py.split "__" "a___b" = ["a"; "_b"].
Proof. reflexivity. Qed.
Example split_ex4 : Py.split "," "" = [""].
Proof. reflexivity. Qed.
Example int_ex1 : Py.int " 12 " = Ret 12. Proof. reflexivity. Qed.
Example int_ex2 : Py.int "-1_0" = Ret (-10). Proof. reflexivity. Qed.
Example int_ex3 : Py.int "1__0" = Raise ValueError. Proof. reflexivity. Qed.
Example int_ex4 : Py.int "" = Raise ValueError. Proof. reflexivity. Qed.
Example int_ex5 : Py.int "a" = Raise ValueError. Proof. reflexivity. Qed.
Example int_ex6 : Py.int (String (ascii_of_nat 28) "7") = Raise ValueError.
Proof. reflexivity. Qed.
Example int_ex7 : Py.int (String (ascii_of_nat 160) "7") = Ret 7.
Proof. reflexivity. Qed.
Example str_ex1 : Py.str_int_list [0; 12; -3] = "[0, 12, -3]". Proof. reflexivity. Qed.
Example strip_ex : Py.strip "  a b  " = "a b". Proof. reflexivity. Qed.
Example index_ex : Py.index [1;2;3] (-1) = Ret 3. Proof. reflexivity. Qed.

Example path_ex1 : str_of_Path (Path_of_str "//a/./b//c/") = "//a/b/c".
Proof. reflexivity. Qed.
Example path_ex2 : str_of_Path (Path_of_str "") = ".". Proof. reflexivity. Qed.
Example path_ex3 : str_of_Path (joinpath (Path_of_str "a/b") "/c") = "/c".
Proof. reflexivity. Qed.
Example path_ex4 : name (parent (joinpath conf_dir "dataset.json"))
                   = "nnUNetTrainer__nnUNetPlans__3d_fullres".
Proof. reflexivity. Qed.

Example isValid_ex1 : isValid sample_fs (with_model "" "models") = Ret (true, "").
Proof. vm_compute. reflexivity. Qed.
Example isValid_ex2 :
  isValid sample_fs (with_model "0,1" "models")
  = Ret (false, "Following model folds don't contain  weights : [1].").
Proof. vm_compute. reflexivity. Qed.
Example isValid_ex3 :
  isValid sample_fs (with_model "0,2,3" "models")
  = Ret (false, "Model folder is missing the following folds : [2, 3].").
Proof. vm_compute. reflexivity. Qed.
Example isValid_ex4 :
  isValid sample_fs (with_model "0" "elsewhere")
  = Ret (false, "Dataset.json file is missing. Provided model dir :" +:+ nl +:+ "elsewhere").
Proof. vm_compute. reflexivity. Qed.
Example asArgList_ex :
  asArgList sample_fs (with_model "0" "models") false (Path_of_str "/in") (Path_of_str "/out")
  = Ret [ PStr "-i"; PStr "/in"; PStr "-o"; PStr "/out"; PStr "-d"; PStr "Dataset001_Bones";
          PStr "-tr"; PStr "nnUNetTrainer"; PStr "-p"; PStr "nnUNetPlans";
          PStr "-c"; PStr "3d_fullres"; PStr "-f"; PStr "0";
          PStr "-npp"; PInt 1; PStr "-nps"; PInt 1; PStr "-step_size"; PFloat float_half;
          PStr "-device"; PStr "cpu"; PStr "-chk"; PStr "checkpoint_final.pth";
          PStr "--disable_tta" ].
Proof. vm_compute. reflexivity. Qed.

(** ** The result monad *)

Lemma bind_Ret {A B} (a : A) (k : A -> PyResult B) : (Ret a ≫= k) = k a.
Proof. reflexivity. Qed.

Lemma bind_Raise {A B} (e : PyExn) (k : A -> PyResult B) : (Raise e ≫= k) = Raise e.
Proof. reflexivity. Qed.

Lemma bind_inv_Ret {A B} (m : PyResult A) (k : A -> PyResult B) (b : B) :
  (m ≫= k) = Ret b -> exists a, m = Ret a /\ k a = Ret b.
Proof. destruct m as [a|e]; [eauto | discriminate]. Qed.

Lemma Ret_inj {A} (a b : A) : Ret a = Ret b -> a = b.
Proof. congruence. Qed.

Lemma fmap_Ret {A B} (f : A -> B) (a : A) : f <$> Ret a = Ret (f a).
Proof. reflexivity. Qed.

Lemma mapM_Ret {A B} (f : A -> PyResult B) (g : A -> B) (l : list A) :
  (forall x, In x l -> f x = Ret (g x)) -> mapM f l = Ret (map g l).
Proof.
  induction l as [|x l IH]; intros Hf; [reflexivity|].
  cbn [mapM map]. rewrite (Hf x (or_introl eq_refl)), bind_Ret.
  rewrite IH by (intros y Hy; apply Hf; right; exact Hy). reflexivity.
Qed.

Ltac py_simpl :=
  repeat first [ rewrite bind_Ret | rewrite bind_Raise | rewrite fmap_Ret ].

(** ** Searching the dataset file *)

Lemma datasetPath_head fs self :
  _datasetPath fs self = head (fs_rglob fs (modelPath self) "dataset.json").
Proof. reflexivity. Qed.

Lemma isDatasetPathValid_Some fs self d :
  _datasetPath fs self = Some d -> _isDatasetPathValid fs self = true.
Proof. unfold _isDatasetPathValid. intros ->. reflexivity. Qed.

Lemma isDatasetPathValid_None fs self :
  _datasetPath fs self = None -> _isDatasetPathValid fs self = false.
Proof. unfold _isDatasetPathValid. intros ->. reflexivity. Qed.

(** C10. The guard [if self.modelPath] never fails: a path is always
    true, so [_datasetPath] is the first path the recursive search from
    [modelPath] yields; for the default configuration the search starts
    at [Path()], the current directory "."; and the result is [None]
    exactly when the search yields nothing. *)
Theorem datasetPath_always_searches :
  (forall p : Path, truthy (PPath p) = true)
  /\ (forall fs self,
        _datasetPath fs self = head (fs_rglob fs (modelPath self) "dataset.json"))
  /\ (forall fs, _datasetPath fs defaults = head (fs_rglob fs Path_ "dataset.json"))
  /\ str_of_Path (modelPath defaults) = "."
  /\ (forall fs self,
        _datasetPath fs self = None <-> fs_rglob fs (modelPath self) "dataset.json" = []).
Proof.
  repeat split; try reflexivity.
  - rewrite datasetPath_head. destruct (fs_rglob _ _ _); [reflexivity | discriminate].
  - intros Hnil. rewrite datasetPath_head, Hnil. reflexivity.
Qed.

(** ** Fold folders and the checks of [isValid] *)

Lemma filter_graph {A B} (g : A -> B) (P : B -> bool) (l : list A) :
  map fst (List.filter (fun fp => P (snd fp)) (map (fun i => (i, g i)) l))
  = List.filter (fun i => P (g i)) l.
Proof.
  induction l as [|i l IH]; [reflexivity|].
  cbn [map List.filter snd]. destruct (P (g i)); cbn [map fst]; now rewrite IH.
Qed.

Lemma getCheckpointName_spec self : _getCheckpointName self = checkpoint_name self.
Proof.
  unfold _getCheckpointName, checkpoint_name. cbn [truthy].
  destruct (String.eqb (checkPointName self) ""); reflexivity.
Qed.

Section FoldFacts.

Variable fs : FileSystem.
Variable self : InferenceParameters.
Variable d : Path.
Variable requested : list Z.
Hypothesis Hd : _datasetPath fs self = Some d.
Hypothesis Hfolds : _foldsAsList self = Ret requested.

Lemma configurationFolder_found : _configurationFolder fs self = Ret (parent d).
Proof. unfold _configurationFolder. now rewrite Hd. Qed.

Lemma configurationNameParts_found :
  _configurationNameParts fs self = Ret (Py.split "__" (name (parent d))).
Proof. unfold _configurationNameParts. now rewrite configurationFolder_found. Qed.

Lemma datasetName_found : _datasetName fs self = Ret (name (parent (parent d))).
Proof.
  unfold _datasetName, _datasetFolder. now rewrite configurationFolder_found.
Qed.

Lemma getFoldPaths_found :
  _getFoldPaths fs self = Ret (map (fun i => (i, fold_folder (parent d) i)) requested).
Proof.
  unfold _getFoldPaths. rewrite Hfolds, bind_Ret.
  apply mapM_Ret. intros i _. now rewrite configurationFolder_found.
Qed.

Lemma getMissingFolds_found :
  _getMissingFolds fs self = Ret (List.filter (fold_missing fs (parent d)) requested).
Proof.
  unfold _getMissingFolds. rewrite getFoldPaths_found, bind_Ret. f_equal.
  apply (filter_graph (fold_folder (parent d)) (fun p => negb (fs_exists fs p))).
Qed.

Lemma getFoldsWithInvalidWeights_found :
  _getFoldsWithInvalidWeights fs self
  = Ret (List.filter (weights_missing fs self (parent d)) requested).
Proof.
  unfold _getFoldsWithInvalidWeights. rewrite getFoldPaths_found, bind_Ret. f_equal.
  rewrite getCheckpointName_spec.
  apply (filter_graph (fold_folder (parent d))
           (fun p => negb (fs_exists fs (joinpath p (checkpoint_name self))))).
Qed.

Lemma isValid_found : isValid fs self = Ret (checks_in_order fs self (Some d) requested).
Proof.
  unfold isValid, checks_in_order.
  rewrite (isDatasetPathValid_Some _ _ _ Hd). cbn [negb].
  rewrite getMissingFolds_found, bind_Ret.
  destruct (List.filter (fold_missing fs (parent d)) requested) as [|m ms];
    [|reflexivity].
  cbn [map truthy]. rewrite getFoldsWithInvalidWeights_found, bind_Ret.
  destruct (List.filter (weights_missing fs self (parent d)) requested) as [|w ws];
    [|reflexivity].
  cbn [map truthy]. rewrite configurationNameParts_found, bind_Ret.
  destruct (length (Py.split "__" (name (parent d))) =? 3)%nat; reflexivity.
Qed.

End FoldFacts.

Lemma isValid_not_found fs self :
  _datasetPath fs self = None -> isValid fs self = Ret (false, reason_dataset self).
Proof.
  intros Hd. unfold isValid. now rewrite (isDatasetPathValid_None _ _ Hd).
Qed.

(** When the dataset file is found, [isValid] passes on what decoding
    the folds text raises. *)
Lemma isValid_folds_raise fs self d e :
  _datasetPath fs self = Some d -> _foldsAsList self = Raise e ->
  isValid fs self = Raise e.
Proof.
  intros Hd Hf. unfold isValid. rewrite (isDatasetPathValid_Some _ _ _ Hd). cbn [negb].
  unfold _getMissingFolds, _getFoldPaths. now rewrite Hf.
Qed.

Lemma filter_nil_forall {A} (P : A -> bool) (l : list A) :
  List.filter P l = [] <-> (forall x, In x l -> P x = false).
Proof.
  induction l as [|x l IH]; cbn [List.filter].
  - split; [intros _ y [] | reflexivity].
  - destruct (P x) eqn:Hx.
    + split; [discriminate|]. intros Hall.
      specialize (Hall x (or_introl eq_refl)). congruence.
    + rewrite IH. split.
      * intros Hall y [<-|Hy]; [exact Hx | now apply Hall].
      * intros Hall y Hy. apply Hall. now right.
Qed.

Lemma isValid_true_iff fs self :
  isValid fs self = Ret (true, "") <-> all_checks_pass fs self.
Proof.
  split.
  - intros Hv. destruct (_datasetPath fs self) as [d|] eqn:Hd.
    2:{ rewrite (isValid_not_found _ _ Hd) in Hv. discriminate. }
    destruct (_foldsAsList self) as [requested|e] eqn:Hf.
    2:{ rewrite (isValid_folds_raise _ _ _ _ Hd Hf) in Hv. discriminate. }
    rewrite (isValid_found _ _ _ _ Hd Hf) in Hv. unfold checks_in_order in Hv.
    destruct (List.filter (fold_missing fs (parent d)) requested) eqn:Hm;
      [|discriminate].
    destruct (List.filter (weights_missing fs self (parent d)) requested) eqn:Hw;
      [|discriminate].
    destruct (length (Py.split "__" (name (parent d))) =? 3)%nat eqn:Hn;
      [|discriminate].
    exists d, requested. split; [exact Hd | split; [exact Hf | split]].
    + intros i Hi. split; apply negb_false_iff.
      * exact (proj1 (filter_nil_forall _ _) Hm i Hi).
      * exact (proj1 (filter_nil_forall _ _) Hw i Hi).
    + now apply Nat.eqb_eq.
  - intros (d & requested & Hd & Hf & Hall & Hn).
    rewrite (isValid_found _ _ _ _ Hd Hf). unfold checks_in_order.
    assert (Hm : List.filter (fold_missing fs (parent d)) requested = []).
    { apply filter_nil_forall. intros i Hi. unfold fold_missing.
      now rewrite (proj1 (Hall i Hi)). }
    assert (Hw : List.filter (weights_missing fs self (parent d)) requested = []).
    { apply filter_nil_forall. intros i Hi. unfold weights_missing.
      now rewrite (proj2 (Hall i Hi)). }
    rewrite Hm, Hw. now rewrite (proj2 (Nat.eqb_eq _ _) Hn).
Qed.





(** What [isValid] returns is one of the five outcomes of the checks. *)
Lemma isValid_outcomes fs self ok reason :
  isValid fs self = Ret (ok, reason) ->
  (ok = true /\ reason = "")
  \/ (ok = false
      /\ (reason = reason_dataset self
          \/ (exists missing, reason = reason_folds missing)
          \/ (exists invalid, reason = reason_weights self invalid)
          \/ reason = reason_name)).
Proof.
  intros Hv. destruct (_datasetPath fs self) as [d|] eqn:Hd.
  2:{ rewrite (isValid_not_found _ _ Hd) in Hv. injection Hv as <- <-. auto. }
  destruct (_foldsAsList self) as [requested|e] eqn:Hf.
  2:{ rewrite (isValid_folds_raise _ _ _ _ Hd Hf) in Hv. discriminate. }
  rewrite (isValid_found _ _ _ _ Hd Hf) in Hv. unfold checks_in_order in Hv.
  destruct (List.filter (fold_missing fs (parent d)) requested) as [|m ms].
  2:{ injection Hv as <- <-. right. eauto 6. }
  destruct (List.filter (weights_missing fs self (parent d)) requested) as [|w ws].
  2:{ injection Hv as <- <-. right. eauto 6. }
  destruct (length (Py.split "__" (name (parent d))) =? 3)%nat;
    injection Hv as <- <-; auto 6.
Qed.

Lemma asArgList_invalid fs self cuda inDir outDir reason :
  isValid fs self = Ret (false, reason) ->
  asArgList fs self cuda inDir outDir
  = Raise (RuntimeError ("Invalid nnUNet configuration. " +:+ reason)).
Proof. intros Hv. unfold asArgList. rewrite Hv, bind_Ret. reflexivity. Qed.

Lemma asArgList_returns_valid fs self cuda inDir outDir args :
  asArgList fs self cuda inDir outDir = Ret args -> isValid fs self = Ret (true, "").
Proof.
  intros Ha. unfold asArgList in Ha.
  destruct (isValid fs self) as [[ok reason]|e] eqn:Hv; [|discriminate].
  rewrite bind_Ret in Ha. cbn [fst snd] in Ha.
  destruct ok; [|discriminate].
  destruct (isValid_outcomes _ _ _ _ Hv) as [[_ ->]|[? _]]; [reflexivity | discriminate].
Qed.

(** C1. [asArgList] raises the configuration error, carrying the reason,
    whenever [isValid] returns false, which it does with one of four
    reasons (dataset file, fold folders, checkpoint files, folder name);
    an argument list is returned only from a configuration for which
    [isValid] returns [(True, "")]. *)
Theorem asArgList_refuses_invalid
    (fs : FileSystem) (self : InferenceParameters) (cuda : bool) (inDir outDir : Path) :
  (forall reason,
      isValid fs self = Ret (false, reason) ->
      asArgList fs self cuda inDir outDir
      = Raise (RuntimeError ("Invalid nnUNet configuration. " +:+ reason))
      /\ (reason = reason_dataset self
          \/ (exists missing, reason = reason_folds missing)
          \/ (exists invalid, reason = reason_weights self invalid)
          \/ reason = reason_name))
  /\ (forall args,
        asArgList fs self cuda inDir outDir = Ret args -> isValid fs self = Ret (true, "")).
Proof.
  split.
  - intros reason Hv. split.
    + now apply asArgList_invalid.
    + destruct (isValid_outcomes _ _ _ _ Hv) as [[? _]|[_ ?]]; [discriminate | assumption].
  - intros args. apply asArgList_returns_valid.
Qed.

Lemma asArgList_refuses_invalid_witness :
  let inDir := Path_of_str "/in" in
  let outDir := Path_of_str "/out" in
  let msg := "Invalid nnUNet configuration. " in
  asArgList sample_fs (with_model "0" "elsewhere") true inDir outDir
  = Raise (RuntimeError (msg +:+ reason_dataset (with_model "0" "elsewhere")))
  /\ asArgList sample_fs (with_model "0,2,3" "models") true inDir outDir
     = Raise (RuntimeError (msg +:+ reason_folds [2; 3]))
  /\ asArgList sample_fs (with_model "0,1" "models") true inDir outDir
     = Raise (RuntimeError (msg +:+ reason_weights (with_model "0,1" "models") [1]))
  /\ asArgList short_name_fs (with_model "0" "models") true inDir outDir
     = Raise (RuntimeError (msg +:+ reason_name)).
Proof.
  intros inDir outDir msg. split; [|split; [|split]].
  - apply (proj1 (asArgList_refuses_invalid sample_fs _ true inDir outDir)).
    vm_compute. reflexivity.
  - apply (proj1 (asArgList_refuses_invalid sample_fs _ true inDir outDir)).
    vm_compute. reflexivity.
  - apply (proj1 (asArgList_refuses_invalid sample_fs _ true inDir outDir)).
    vm_compute. reflexivity.
  - apply (proj1 (asArgList_refuses_invalid short_name_fs _ true inDir outDir)).
    vm_compute. reflexivity.
Defined.



(** ** The argument list of a valid configuration *)

Lemma asArgList_valid fs self cuda inDir outDir :
  isValid fs self = Ret (true, "") ->
  exists d requested tr pl cf,
    _datasetPath fs self = Some d
    /\ _foldsAsList self = Ret requested
    /\ Py.split "__" (name (parent d)) = [tr; pl; cf]
    /\ asArgList fs self cuda inDir outDir
       = Ret (([ PStr "-i"; PStr (as_posix inDir);
                 PStr "-o"; PStr (as_posix outDir);
                 PStr "-d"; PStr (name (parent (parent d)));
                 PStr "-tr"; PStr tr; PStr "-p"; PStr pl; PStr "-c"; PStr cf;
                 PStr "-f" ]
               ++ map (fun f => PStr (Py.str_int f)) requested
               ++ [ PStr "-npp"; PInt (nProcessPreprocessing self);
                    PStr "-nps"; PInt (nProcessSegmentationExport self);
                    PStr "-step_size"; PFloat (stepSize self) ])
              ++ device_arguments self (if cuda then device self else "cpu"))%list.
Proof.
  intros Hv. destruct (proj1 (isValid_true_iff fs self) Hv)
    as (d & requested & Hd & Hf & _ & Hn).
  rewrite <- datasetPath_head in Hd.
  destruct (Py.split "__" (name (parent d))) as [|tr [|pl [|cf [|x r]]]] eqn:Hparts;
    try discriminate Hn.
  exists d, requested, tr, pl, cf. split; [exact Hd | split; [exact Hf | split]];
    [exact Hparts|].
  unfold asArgList. rewrite Hv, bind_Ret. cbn [fst snd negb].
  rewrite (datasetName_found _ _ _ Hd), bind_Ret.
  rewrite (configurationNameParts_found _ _ _ Hd), Hparts. py_simpl.
  change (Py.index [tr; pl; cf] 0) with (Ret (A:=string) tr).
  change (Py.index [tr; pl; cf] 1) with (Ret (A:=string) pl).
  change (Py.index [tr; pl; cf] (-1)) with (Ret (A:=string) cf).
  py_simpl. rewrite Hf, bind_Ret. unfold device_arguments.
  destruct (disableTta self); cbn [app]; rewrite <- ?app_assoc; cbn [app];
    try rewrite app_nil_r; reflexivity.
Qed.

(** C5, as the code has it. In the argument list, "-device" is followed
    by the configured device when CUDA is available and by "cpu" when
    it is not, whatever the configured device; the list ends with the
    checkpoint flag and the optional TTA flag. Whether the
    configuration is valid depends neither on the device nor on the
    availability of CUDA, and every valid configuration gets its
    argument list. *)
Theorem device_argument
    (fs : FileSystem) (self : InferenceParameters) (cuda : bool) (inDir outDir : Path) :
  (forall args,
      asArgList fs self cuda inDir outDir = Ret args ->
      exists before,
        args = (before
                ++ device_arguments self (if cuda then device self else "cpu"))%list)
  /\ (forall dev, isValid fs (set_device self dev) = isValid fs self)
  /\ (isValid fs self = Ret (true, "") ->
      exists args, asArgList fs self cuda inDir outDir = Ret args).
Proof.
  split; [|split].
  - intros args Ha.
    destruct (asArgList_valid fs self cuda inDir outDir
                (asArgList_returns_valid _ _ _ _ _ _ Ha))
      as (d & requested & tr & pl & cf & _ & _ & _ & Hargs).
    rewrite Hargs in Ha. apply Ret_inj in Ha. subst args.
    eexists. reflexivity.
  - intros dev.
    unfold isValid, _isDatasetPathValid, _getMissingFolds, _getFoldsWithInvalidWeights,
      _getFoldPaths, _configurationNameParts, _configurationFolder, _datasetPath,
      _foldsAsList, _getCheckpointName, reason_dataset, reason_weights, set_device.
    cbn [folds checkPointName modelPath]. reflexivity.
  - intros Hv.
    destruct (asArgList_valid fs self cuda inDir outDir Hv)
      as (d & requested & tr & pl & cf & _ & _ & _ & Hargs).
    eauto.
Qed.

Lemma device_argument_witness :
  let self := with_model "0" "models" in
  let args :=
    [ PStr "-i"; PStr "/in"; PStr "-o"; PStr "/out"; PStr "-d"; PStr "Dataset001_Bones";
      PStr "-tr"; PStr "nnUNetTrainer"; PStr "-p"; PStr "nnUNetPlans";
      PStr "-c"; PStr "3d_fullres"; PStr "-f"; PStr "0";
      PStr "-npp"; PInt 1; PStr "-nps"; PInt 1; PStr "-step_size"; PFloat float_half;
      PStr "-device"; PStr "cpu"; PStr "-chk"; PStr "checkpoint_final.pth";
      PStr "--disable_tta" ] in
  asArgList sample_fs self false (Path_of_str "/in") (Path_of_str "/out") = Ret args
  /\ exists before, args = (before ++ device_arguments self "cpu")%list.
Proof.
  intros self args.
  assert (Ha : asArgList sample_fs self false (Path_of_str "/in") (Path_of_str "/out")
               = Ret args) by (vm_compute; reflexivity).
  split; [exact Ha|].
  exact (proj1 (device_argument sample_fs self false (Path_of_str "/in")
                  (Path_of_str "/out")) args Ha).
Defined.

(** C5, as the claim states it, fails: on a machine with MPS and
    without CUDA, GPU acceleration is available, the configured device
    is "mps", and the argument after "-device" is "cpu". *)
Lemma device_downgraded_with_mps :
  let m := {| has_cuda := false; has_mps := true |} in
  let self := mkParameter "0" "mps" float_half true 1 1 "" (Path_of_str "models") in
  gpu_acceleration m = true
  /\ device self = "mps"
  /\ isValid sample_fs self = Ret (true, "")
  /\ exists args,
       asArgList sample_fs self (has_cuda m) (Path_of_str "/in") (Path_of_str "/out")
       = Ret args
       /\ value_after "-device" args = Some (PStr "cpu")
       /\ value_after "-device" args <> Some (PStr (device self)).
Proof.
  intros m self. split; [reflexivity | split; [reflexivity | split]].
  - vm_compute. reflexivity.
  - eexists. split; [vm_compute; reflexivity | split; [reflexivity | discriminate]].
Qed.

(** ** Folds text that does not decode *)

(** C8. [isValid] raises instead of returning [(False, reason)]: with
    the dataset file in place and the folds text "a", [int("a")] raises
    [ValueError] out of [isValid]. In general [isValid] raises exactly
    when the dataset file is found and the folds text does not decode,
    and it raises what the decoding raises. *)
Theorem isValid_raises_on_folds_text :
  isValid sample_fs (with_model "a" "models") = Raise ValueError
  /\ isValid sample_fs (with_model "0," "models") = Raise ValueError
  /\ (forall fs self e,
        isValid fs self = Raise e
        <-> (exists d, _datasetPath fs self = Some d) /\ _foldsAsList self = Raise e).
Proof.
  split; [vm_compute; reflexivity | split; [vm_compute; reflexivity |]].
  intros fs self e. split.
  - intros Hv. destruct (_datasetPath fs self) as [d|] eqn:Hd.
    2:{ rewrite (isValid_not_found _ _ Hd) in Hv. discriminate. }
    destruct (_foldsAsList self) as [requested|e'] eqn:Hf.
    + rewrite (isValid_found _ _ _ _ Hd Hf) in Hv. discriminate.
    + rewrite (isValid_folds_raise _ _ _ _ Hd Hf) in Hv. injection Hv as ->. eauto.
  - intros [[d Hd] Hf]. exact (isValid_folds_raise _ _ _ _ Hd Hf).
Qed.

(** ** Dictionaries and plain JSON decoding *)

Lemma decode_plain (v : JValue) : decode (fun d => Ret (PDict d)) v = Ret (to_py v).
Proof.
  induction v using JValue_nested_ind; try reflexivity.
  - cbn [decode to_py]. rewrite (mapM_Ret _ to_py).
    + reflexivity.
    + intros x Hx. exact (proj1 (List.Forall_forall _ _) H x Hx).
  - cbn [decode to_py]. rewrite (mapM_Ret _ (on_snd to_py)).
    + reflexivity.
    + intros kv Hkv. rewrite (proj1 (List.Forall_forall _ _) H kv Hkv). reflexivity.
Qed.

Lemma json_loads_doc (v : JValue) : json_loads (JsonDoc v) = Ret (to_py v).
Proof. apply decode_plain. Qed.

Lemma dict_get_set {A} (d : list (string * A)) k v k' :
  dict_get (dict_set d k v) k' = if String.eqb k k' then Some v else dict_get d k'.
Proof.
  induction d as [|[k0 v0] d IH]; cbn [dict_set dict_get].
  - reflexivity.
  - destruct (String.eqb k0 k) eqn:E0; cbn [dict_get].
    + apply String.eqb_eq in E0. subst k0. destruct (String.eqb k k'); reflexivity.
    + destruct (String.eqb k0 k') eqn:E1; [|exact IH].
      apply String.eqb_eq in E1. subst k'. now rewrite String.eqb_sym, E0.
Qed.

Lemma dict_get_fold {A} (l : list (string * A)) acc k :
  dict_get (fold_left (fun d kv => dict_set d (fst kv) (snd kv)) l acc) k
  = match last_value l k with Some w => Some w | None => dict_get acc k end.
Proof.
  revert acc. induction l as [|[k0 v0] l IH]; intros acc; cbn [fold_left last_value].
  - reflexivity.
  - rewrite IH. destruct (last_value l k); [reflexivity|].
    cbn [fst snd]. rewrite dict_get_set. now destruct (String.eqb k0 k).
Qed.

Lemma dict_get_of_pairs {A} (l : list (string * A)) k :
  dict_get (dict_of_pairs l) k = last_value l k.
Proof.
  unfold dict_of_pairs. rewrite dict_get_fold. now destruct (last_value l k).
Qed.

Lemma last_value_None {A} (l : list (string * A)) k :
  last_value l k = None <-> ~ In k (map fst l).
Proof.
  induction l as [|[k0 v0] l IH]; cbn [last_value map fst In].
  - tauto.
  - destruct (last_value l k).
    + split; [discriminate|]. intros Hn. exfalso. apply Hn. right.
      destruct (in_dec String.string_dec k (map fst l)) as [Hi|Hi]; [exact Hi|].
      apply IH in Hi. discriminate.
    + destruct (String.eqb k0 k) eqn:E.
      * apply String.eqb_eq in E. split; [discriminate | intros Hn; exfalso; auto].
      * apply String.eqb_neq in E. split; [|reflexivity].
        intros _ [Hk|Hk]; [contradiction | now apply (proj1 IH)].
Qed.

Lemma last_value_map {A B} (f : A -> B) (l : list (string * A)) k :
  last_value (map (on_snd f) l) k = f <$> last_value l k.
Proof.
  induction l as [|[k0 v0] l IH]; cbn [map last_value on_snd fst snd]; [reflexivity|].
  rewrite IH. destruct (last_value l k); [reflexivity|].
  cbn. destruct (String.eqb k0 k); reflexivity.
Qed.

Lemma dict_set_map {A B} (f : A -> B) (d : list (string * A)) k v :
  dict_set (map (on_snd f) d) k (f v) = map (on_snd f) (dict_set d k v).
Proof.
  induction d as [|[k0 v0] d IH]; cbn [map dict_set on_snd fst snd]; [reflexivity|].
  destruct (String.eqb k0 k); cbn [map on_snd fst snd]; [reflexivity | now rewrite IH].
Qed.

Lemma dict_of_pairs_map {A B} (f : A -> B) (l : list (string * A)) :
  dict_of_pairs (map (on_snd f) l) = map (on_snd f) (dict_of_pairs l).
Proof.
  unfold dict_of_pairs.
  change (@nil (string * B)) with (map (on_snd f) (@nil (string * A))).
  generalize (@nil (string * A)) as acc.
  induction l as [|[k0 v0] l IH]; intros acc; cbn [map fold_left]; [reflexivity|].
  cbn [on_snd fst snd]. rewrite dict_set_map. apply IH.
Qed.

(** ** Reading the labels of the dataset file *)

Section ReadLabels.
Context `{PyRepr}.

Variable fs : FileSystem.
Variable self : InferenceParameters.

Lemma readSegmentIds_not_found :
  _datasetPath fs self = None ->
  readSegmentIdsAndLabelsFromDatasetFile fs self = Ret None.
Proof.
  intros Hd. unfold readSegmentIdsAndLabelsFromDatasetFile.
  now rewrite (isDatasetPathValid_None _ _ Hd).
Qed.

Lemma readSegmentIds_found d members :
  _datasetPath fs self = Some d ->
  fs_read fs d = Ret (JsonDoc (JObj members)) ->
  readSegmentIdsAndLabelsFromDatasetFile fs self
  = (kvs ← items (default PNone (to_py <$> last_value members "labels"));
     Ret (Some (map (fun kv => ("Segment_" +:+ str (snd kv), fst kv)) kvs))).
Proof.
  intros Hd Hread. unfold readSegmentIdsAndLabelsFromDatasetFile.
  rewrite (isDatasetPathValid_Some _ _ _ Hd), Hd. cbn [negb].
  rewrite Hread, bind_Ret, json_loads_doc, bind_Ret.
  cbn [to_py get]. rewrite dict_get_of_pairs, last_value_map.
  reflexivity.
Qed.

Lemma readSegmentIds_labels d members labels :
  _datasetPath fs self = Some d ->
  fs_read fs d = Ret (JsonDoc (JObj members)) ->
  last_value members "labels" = Some (JObj labels) ->
  readSegmentIdsAndLabelsFromDatasetFile fs self
  = Ret (Some (map (fun kv => ("Segment_" +:+ str (to_py (snd kv)), fst kv))
                 (dict_of_pairs labels))).
Proof.
  intros Hd Hread Hl. rewrite (readSegmentIds_found d members Hd Hread), Hl.
  cbn [fmap option_fmap option_map default from_option id to_py items].
  rewrite bind_Ret.
  rewrite dict_of_pairs_map, map_map. reflexivity.
Qed.

(** What a normal return tells about the file. *)
Lemma readSegmentIds_returns result :
  readSegmentIdsAndLabelsFromDatasetFile fs self = Ret result ->
  match result with
  | None => _datasetPath fs self = None
  | Some _ =>
      exists d members labels,
        _datasetPath fs self = Some d
        /\ fs_read fs d = Ret (JsonDoc (JObj members))
        /\ last_value members "labels" = Some (JObj labels)
  end.
Proof.
  intros Hr. destruct (_datasetPath fs self) as [d|] eqn:Hd.
  2:{ rewrite (readSegmentIds_not_found Hd) in Hr. now injection Hr as <-. }
  unfold readSegmentIdsAndLabelsFromDatasetFile in Hr.
  rewrite (isDatasetPathValid_Some _ _ _ Hd), Hd in Hr. cbn [negb] in Hr.
  destruct (fs_read fs d) as [text|e] eqn:Hread; [|discriminate].
  rewrite bind_Ret in Hr.
  destruct text as [| |v]; try discriminate.
  rewrite json_loads_doc, bind_Ret in Hr.
  destruct v as [| | | | | |members]; try discriminate.
  cbn [to_py get] in Hr. rewrite dict_get_of_pairs, last_value_map in Hr.
  cbn [mbind PyResult_bind] in Hr.
  destruct (last_value members "labels") as [lv|] eqn:Hl; [|discriminate].
  destruct lv as [| | | | | |labels]; try discriminate.
  destruct result as [r|].
  - exists d, members, labels. auto.
  - cbn in Hr. discriminate.
Qed.

End ReadLabels.

(** C9. When the dataset file is found and its JSON object has no
    "labels" key, [readSegmentIdsAndLabelsFromDatasetFile] raises (an
    [AttributeError], from [None.items()]); and when it returns a list,
    the file holds a JSON object whose "labels" member is an object. *)
Theorem labels_key_required `{PyRepr} (fs : FileSystem) (self : InferenceParameters) :
  (forall d members,
      _datasetPath fs self = Some d ->
      fs_read fs d = Ret (JsonDoc (JObj members)) ->
      ~ In "labels" (map fst members) ->
      readSegmentIdsAndLabelsFromDatasetFile fs self = Raise AttributeError)
  /\ (forall pairs,
        readSegmentIdsAndLabelsFromDatasetFile fs self = Ret (Some pairs) ->
        exists d members labels,
          _datasetPath fs self = Some d
          /\ fs_read fs d = Ret (JsonDoc (JObj members))
          /\ In "labels" (map fst members)
          /\ last_value members "labels" = Some (JObj labels)).
Proof.
  split.
  - intros d members Hd Hread Hno.
    rewrite (readSegmentIds_found fs self d members Hd Hread).
    now rewrite (proj2 (last_value_None members "labels") Hno).
  - intros pairs Hr.
    destruct (readSegmentIds_returns fs self _ Hr) as (d & members & labels & Hd & Hread & Hl).
    exists d, members, labels. repeat (split; [assumption|]). split; [|assumption].
    destruct (in_dec String.string_dec "labels" (map fst members)) as [Hi|Hi]; [exact Hi|].
    apply last_value_None in Hi. congruence.
Qed.

Lemma labels_key_required_witness :
  let self := with_model "" "models" in
  let d := joinpath conf_dir "dataset.json" in
  _datasetPath unlabelled_fs self = Some d
  /\ fs_read unlabelled_fs d = Ret (JsonDoc (JObj [("name", JStr "Bones")]))
  /\ ~ In "labels" (map fst [("name", JStr "Bones")])
  /\ readSegmentIdsAndLabelsFromDatasetFile (H:=sample_repr) unlabelled_fs self
     = Raise AttributeError.
Proof.
  intros self d.
  assert (Hd : _datasetPath unlabelled_fs self = Some d) by (vm_compute; reflexivity).
  assert (Hread : fs_read unlabelled_fs d = Ret (JsonDoc (JObj [("name", JStr "Bones")])))
    by (vm_compute; reflexivity).
  assert (Hno : ~ In "labels" (map fst [("name", JStr "Bones")]))
    by (cbn; intros [Hx|[]]; discriminate Hx).
  split; [exact Hd | split; [exact Hread | split; [exact Hno|]]].
  exact (proj1 (labels_key_required (H:=sample_repr) unlabelled_fs self) d _ Hd Hread Hno).
Defined.

(** C4. [readSegmentIdsAndLabelsFromDatasetFile] returns [None] when
    the search finds no dataset file; when the file holds an object
    whose "labels" member maps label names to integer ids, it returns
    the pair ("Segment_<id>", name) for each entry, in the iteration
    order of that mapping as read from the file. *)
Theorem readSegmentIds_spec `{PyRepr} (fs : FileSystem) (self : InferenceParameters) :
  (fs_rglob fs (modelPath self) "dataset.json" = [] ->
   readSegmentIdsAndLabelsFromDatasetFile fs self = Ret None)
  /\ (forall d members (ids : list (string * Z)),
        head (fs_rglob fs (modelPath self) "dataset.json") = Some d ->
        fs_read fs d = Ret (JsonDoc (JObj members)) ->
        dict_get (dict_of_pairs members) "labels" = Some (JObj (map (on_snd JInt) ids)) ->
        readSegmentIdsAndLabelsFromDatasetFile fs self
        = Ret (Some (map (fun kv => ("Segment_" +:+ Py.str_int (snd kv), fst kv))
                       (dict_of_pairs ids)))).
Proof.
  split.
  - intros Hnil. apply readSegmentIds_not_found. now rewrite datasetPath_head, Hnil.
  - intros d members ids Hd Hread Hl. rewrite dict_get_of_pairs in Hl.
    rewrite (readSegmentIds_labels fs self d members _ Hd Hread Hl).
    rewrite dict_of_pairs_map, map_map. reflexivity.
Qed.

Lemma readSegmentIds_spec_witness :
  let self := with_model "" "models" in
  let d := joinpath conf_dir "dataset.json" in
  let members := [("labels", JObj [("bone", JInt 1); ("liver", JInt 2)])] in
  head (fs_rglob sample_fs (modelPath self) "dataset.json") = Some d
  /\ fs_read sample_fs d = Ret (JsonDoc (JObj members))
  /\ readSegmentIdsAndLabelsFromDatasetFile (H:=sample_repr) sample_fs self
     = Ret (Some [("Segment_1", "bone"); ("Segment_2", "liver")])
  /\ readSegmentIdsAndLabelsFromDatasetFile (H:=sample_repr) sample_fs
       (with_model "" "elsewhere")
     = Ret None.
Proof.
  intros self d members.
  assert (Hd : head (fs_rglob sample_fs (modelPath self) "dataset.json") = Some d)
    by (vm_compute; reflexivity).
  assert (Hread : fs_read sample_fs d = Ret (JsonDoc (JObj members)))
    by (vm_compute; reflexivity).
  split; [exact Hd | split; [exact Hread | split]].
  - exact (proj2 (readSegmentIds_spec (H:=sample_repr) sample_fs self) d members
             [("bone", 1); ("liver", 2)] Hd Hread eq_refl).
  - apply (proj1 (readSegmentIds_spec (H:=sample_repr) sample_fs
                    (with_model "" "elsewhere"))).
    vm_compute. reflexivity.
Defined.

(** ** Strings: strip, split and join *)

Lemma append_nil_r (s : string) : s +:+ "" = s.
Proof.
  induction s as [|c s IH]; [reflexivity|].
  change (String c (s +:+ "") = String c s). now f_equal.
Qed.

Lemma append_assoc (a b c : string) : (a +:+ b) +:+ c = a +:+ b +:+ c.
Proof.
  induction a as [|x a IH]; [reflexivity|].
  change (String x ((a +:+ b) +:+ c) = String x (a +:+ b +:+ c)). now f_equal.
Qed.

Lemma all_chars_append P a b :
  Py.all_chars P (a +:+ b) = Py.all_chars P a && Py.all_chars P b.
Proof.
  induction a as [|c a IH]; [reflexivity|].
  change (String c a +:+ b) with (String c (a +:+ b)). cbn [Py.all_chars].
  now rewrite IH, andb_assoc.
Qed.

Lemma all_chars_weaken (P Q : ascii -> bool) s :
  (forall c, P c = true -> Q c = true) ->
  Py.all_chars P s = true -> Py.all_chars Q s = true.
Proof.
  intros HPQ. induction s as [|c s IH]; cbn [Py.all_chars]; [reflexivity|].
  intros [Hc Hs]%andb_true_iff. now rewrite (HPQ c Hc), IH.
Qed.

Lemma lstrip_no_space s :
  Py.all_chars (fun c => negb (Py.isspace c)) s = true -> Py.lstrip s = s.
Proof.
  destruct s as [|c s]; cbn [Py.all_chars Py.lstrip]; [reflexivity|].
  intros [Hc _]%andb_true_iff. apply negb_true_iff in Hc. now rewrite Hc.
Qed.

Lemma rstrip_no_space s :
  Py.all_chars (fun c => negb (Py.isspace c)) s = true -> Py.rstrip s = s.
Proof.
  induction s as [|c s IH]; cbn [Py.all_chars Py.rstrip]; [reflexivity|].
  intros [Hc Hs]%andb_true_iff. apply negb_true_iff in Hc. rewrite (IH Hs).
  destruct s; [now rewrite Hc | reflexivity].
Qed.

Lemma strip_no_space s :
  Py.all_chars (fun c => negb (Py.isspace c)) s = true -> Py.strip s = s.
Proof.
  intros Hs. unfold Py.strip. rewrite (lstrip_no_space s Hs). now apply rstrip_no_space.
Qed.

Lemma int_isspace_isspace c : Py.int_isspace c = true -> Py.isspace c = true.
Proof.
  destruct c as [[] [] [] [] [] [] [] []]; intros Hc; vm_compute in Hc;
    try discriminate Hc; reflexivity.
Qed.

Lemma int_strip_no_space s :
  Py.all_chars (fun c => negb (Py.isspace c)) s = true ->
  Py.int_rstrip (Py.int_lstrip s) = s.
Proof.
  intros Hs.
  assert (Hi : Py.all_chars (fun c => negb (Py.int_isspace c)) s = true).
  { revert Hs. apply all_chars_weaken. intros c Hc.
    destruct (Py.int_isspace c) eqn:Hic; [|reflexivity].
    now rewrite (int_isspace_isspace c Hic) in Hc. }
  clear Hs.
  assert (Hl : Py.int_lstrip s = s).
  { destruct s as [|c s]; [reflexivity|]. cbn [Py.all_chars Py.int_lstrip] in *.
    apply andb_true_iff in Hi as [Hc _]. apply negb_true_iff in Hc. now rewrite Hc. }
  rewrite Hl. induction s as [|c s IH]; [reflexivity|].
  cbn [Py.all_chars Py.int_rstrip] in *. apply andb_true_iff in Hi as [Hc Hi].
  apply negb_true_iff in Hc.
  rewrite IH; [destruct s; [now rewrite Hc | reflexivity] | exact Hi |].
  destruct s as [|c' s]; [reflexivity|]. cbn [Py.all_chars Py.int_lstrip] in *.
  apply andb_true_iff in Hi as [Hc' _]. apply negb_true_iff in Hc'. now rewrite Hc'.
Qed.

Section SplitJoin.

Variable c : ascii.
Let sep : string := String c EmptyString.
Let other (a : ascii) : bool := negb (Ascii.eqb a c).

Lemma split_go_field cur f rest :
  Py.all_chars other f = true ->
  Py.split_go sep 0 cur (f +:+ rest) = Py.split_go sep 0 (cur +:+ f) rest.
Proof.
  revert cur. induction f as [|a f IH]; intros cur Hall.
  - now rewrite append_nil_r.
  - cbn [Py.all_chars] in Hall. apply andb_true_iff in Hall as [Ha Hf].
    unfold other in Ha. apply negb_true_iff in Ha. apply Ascii.eqb_neq in Ha.
    change (String a f +:+ rest) with (String a (f +:+ rest)).
    cbn [Py.split_go]. unfold sep at 1. cbn [String.prefix].
    destruct (ascii_dec c a) as [->|_]; [contradiction|].
    fold sep. rewrite (IH _ Hf), append_assoc. reflexivity.
Qed.

Lemma split_go_join cur x xs :
  Forall (fun f => Py.all_chars other f = true) (x :: xs) ->
  Py.split_go sep 0 cur (Py.join sep (x :: xs)) = (cur +:+ x) :: xs.
Proof.
  revert cur x. induction xs as [|y ys IH]; intros cur x Hall.
  - cbn [Py.join]. rewrite <- (append_nil_r x) at 1.
    rewrite split_go_field by (now inversion Hall). reflexivity.
  - inversion Hall as [|? ? Hx Hrest]; subst.
    change (Py.join sep (x :: y :: ys)) with (x +:+ sep +:+ Py.join sep (y :: ys)).
    rewrite (split_go_field _ _ _ Hx).
    set (J := Py.join sep (y :: ys)) in *.
    change (sep +:+ J) with (String c J). cbn [Py.split_go].
    assert (Hp : String.prefix sep (String c J) = true).
    { unfold sep. cbn [String.prefix]. destruct (ascii_dec c c); [|contradiction].
      now destruct J. }
    rewrite Hp. change (Nat.pred (String.length sep)) with 0%nat.
    f_equal. apply (IH "" y Hrest).
Qed.

Lemma split_join x xs :
  Forall (fun f => Py.all_chars other f = true) (x :: xs) ->
  Py.split sep (Py.join sep (x :: xs)) = x :: xs.
Proof. intros Hall. unfold Py.split. now rewrite split_go_join. Qed.

Lemma all_chars_join (P : ascii -> bool) l :
  P c = true ->
  Forall (fun f => Py.all_chars P f = true) l ->
  Py.all_chars P (Py.join sep l) = true.
Proof.
  intros Hc. induction l as [|x [|y l] IH]; intros Hall.
  - reflexivity.
  - now inversion Hall.
  - inversion Hall as [|? ? Hx Hrest]; subst.
    change (Py.join sep (x :: y :: l)) with (x +:+ sep +:+ Py.join sep (y :: l)).
    rewrite !all_chars_append, Hx. unfold sep at 1. cbn [Py.all_chars].
    now rewrite Hc, (IH Hrest).
Qed.

End SplitJoin.

(** ** Decimal numerals and [int] *)

Ltac each_char a :=
  destruct a as [[] [] [] [] [] [] [] []].

Lemma isdigit_other (a : ascii) :
  Py.isdigit a = true ->
  Py.isspace a = false /\ Ascii.eqb a "," = false
  /\ Ascii.eqb a "+" = false /\ Ascii.eqb a "-" = false.
Proof.
  each_char a; intros Ha; vm_compute in Ha; try discriminate Ha;
    vm_compute; auto.
Qed.

Lemma uint_all_digits (d : Decimal.uint) :
  Py.all_chars Py.isdigit (NilEmpty.string_of_uint d) = true.
Proof.
  induction d; cbn [NilEmpty.string_of_uint Py.all_chars]; [reflexivity| ..];
    rewrite IHd; reflexivity.
Qed.

Lemma int_digits_acc (d : Decimal.uint) (acc : positive) :
  Py.int_digits true (N.pos acc) (NilEmpty.string_of_uint d)
  = Some (N.pos (Pos.of_uint_acc d acc)).
Proof.
  revert acc.
  induction d; intros acc; cbn [NilEmpty.string_of_uint Py.int_digits Pos.of_uint_acc];
    [reflexivity| ..];
    match goal with
    | |- context [Py.isdigit ?a] => change (Py.isdigit a) with true
    end;
    cbv iota; rewrite <- IHd; f_equal;
    match goal with
    | |- context [Py.digit_val ?a] =>
        let v := eval vm_compute in (Py.digit_val a) in
        change (Py.digit_val a) with v
    end; lia.
Qed.

Lemma int_digits_uint (d : Decimal.uint) (prev : bool) :
  prev = true \/ d <> Decimal.Nil ->
  Py.int_digits prev 0 (NilEmpty.string_of_uint d) = Some (Pos.of_uint d).
Proof.
  revert prev.
  induction d; intros prev Hp;
    cbn [NilEmpty.string_of_uint Py.int_digits Pos.of_uint].
  - destruct Hp as [->|Hp]; [reflexivity | contradiction].
  - change (Py.isdigit "0") with true. cbv iota. apply (IHd true). now left.
  - apply (int_digits_acc d 1).
  - apply (int_digits_acc d 2).
  - apply (int_digits_acc d 3).
  - apply (int_digits_acc d 4).
  - apply (int_digits_acc d 5).
  - apply (int_digits_acc d 6).
  - apply (int_digits_acc d 7).
  - apply (int_digits_acc d 8).
  - apply (int_digits_acc d 9).
Qed.

Lemma to_uint_nonnil (n : N) : N.to_uint n <> Decimal.Nil.
Proof.
  destruct n as [|p]; [discriminate|]. apply DecimalPos.Unsigned.to_uint_nonnil.
Qed.

Lemma str_int_of_N (n : N) :
  Py.str_int (Z.of_N n) = NilEmpty.string_of_uint (N.to_uint n).
Proof.
  destruct n as [|p]; [reflexivity|].
  unfold Py.str_int. cbn [Z.of_N Z.to_int NilZero.string_of_int N.to_uint].
  unfold NilZero.string_of_uint.
  pose proof (DecimalPos.Unsigned.to_uint_nonnil p) as Hp.
  destruct (Pos.to_uint p); [contradiction | reflexivity ..].
Qed.

Lemma str_int_digits (n : N) : Py.all_chars Py.isdigit (Py.str_int (Z.of_N n)) = true.
Proof. rewrite str_int_of_N. apply uint_all_digits. Qed.

Lemma str_int_nonempty (n : N) : Py.str_int (Z.of_N n) <> "".
Proof.
  rewrite str_int_of_N. pose proof (to_uint_nonnil n) as Hn.
  destruct (N.to_uint n); [contradiction | discriminate ..].
Qed.

Lemma digits_no_space s :
  Py.all_chars Py.isdigit s = true ->
  Py.all_chars (fun c => negb (Py.isspace c)) s = true.
Proof.
  apply all_chars_weaken. intros c Hc.
  now rewrite (proj1 (isdigit_other c Hc)).
Qed.

(** [int] of a non-empty string of digits reads no sign and strips
    nothing. *)
Lemma int_digit_string (s : string) :
  s <> "" -> Py.all_chars Py.isdigit s = true ->
  Py.int s = match Py.int_digits false 0 s with
             | Some n => Ret (1 * Z.of_N n)
             | None => Raise ValueError
             end.
Proof.
  intros Hne Hs. unfold Py.int. rewrite (int_strip_no_space s (digits_no_space s Hs)).
  destruct s as [|a r]; [contradiction|].
  cbn [Py.all_chars] in Hs. apply andb_true_iff in Hs as [Ha _].
  destruct (isdigit_other a Ha) as (_ & _ & Hplus & Hminus).
  each_char a; vm_compute in Hplus; vm_compute in Hminus;
    try discriminate Hplus; try discriminate Hminus; reflexivity.
Qed.

Lemma int_str_int (n : N) : Py.int (Py.str_int (Z.of_N n)) = Ret (Z.of_N n).
Proof.
  rewrite (int_digit_string _ (str_int_nonempty n) (str_int_digits n)).
  rewrite str_int_of_N, (int_digits_uint _ false (or_intror (to_uint_nonnil n))).
  change (Pos.of_uint (N.to_uint n)) with (N.of_uint (N.to_uint n)).
  rewrite DecimalN.Unsigned.of_to. f_equal. lia.
Qed.

Lemma mapM_int_str_int (l : list N) :
  mapM Py.int (map (fun n => Py.str_int (Z.of_N n)) l) = Ret (map Z.of_N l).
Proof.
  induction l as [|n l IH]; [reflexivity|].
  cbn [map mapM]. rewrite int_str_int, bind_Ret, IH. reflexivity.
Qed.

Lemma folds_text_fields (l : list N) :
  Forall (fun f => Py.all_chars (fun a => negb (Ascii.eqb a ",")) f = true)
         (map (fun n => Py.str_int (Z.of_N n)) l).
Proof.
  apply List.Forall_forall. intros f [n [<- _]]%in_map_iff.
  apply (all_chars_weaken Py.isdigit); [|apply str_int_digits].
  intros c Hc. destruct (isdigit_other c Hc) as (_ & -> & _). reflexivity.
Qed.

Lemma folds_text_no_space (l : list N) :
  Py.all_chars (fun c => negb (Py.isspace c)) (folds_text l) = true.
Proof.
  apply (all_chars_join "," (fun c => negb (Py.isspace c))); [reflexivity|].
  apply List.Forall_forall. intros f [n [<- _]]%in_map_iff.
  apply digits_no_space, str_int_digits.
Qed.

Lemma folds_text_nonempty (l : list N) : l <> [] -> folds_text l <> "".
Proof.
  destruct l as [|n l]; [contradiction|]. intros _. unfold folds_text.
  pose proof (str_int_nonempty n) as Hn. cbn [map Py.join].
  destruct (Py.str_int (Z.of_N n)) as [|a r]; [contradiction|].
  destruct (map _ l); discriminate.
Qed.

Lemma foldsAsList_empty self : folds self = "" -> _foldsAsList self = Ret [0].
Proof. intros Hf. unfold _foldsAsList. now rewrite Hf. Qed.

Lemma foldsAsList_text self (l : list N) :
  l <> [] -> folds self = folds_text l -> _foldsAsList self = Ret (map Z.of_N l).
Proof.
  intros Hl Hf. unfold _foldsAsList. rewrite Hf. cbn [truthy].
  destruct (String.eqb (folds_text l) "") eqn:He.
  { apply String.eqb_eq in He. now apply folds_text_nonempty in He. }
  cbn [negb]. rewrite (strip_no_space _ (folds_text_no_space l)).
  unfold folds_text. destruct l as [|n l]; [contradiction|].
  cbn [map].
  rewrite (split_join "," (Py.str_int (Z.of_N n))
             (map (fun n => Py.str_int (Z.of_N n)) l) (folds_text_fields (n :: l))).
  apply (mapM_int_str_int (n :: l)).
Qed.

(** C6. The empty folds text requests the single fold 0; a folds text
    that lists non-negative integers separated by commas requests those
    integers, in order; and for each requested fold [i] the folder that
    is checked, for itself and for its weights, is
    configuration folder / fold_<i>. *)
Theorem folds_decoding (fs : FileSystem) (self : InferenceParameters) :
  (folds self = "" -> _foldsAsList self = Ret [0])
  /\ (forall l : list N,
        l <> [] -> folds self = folds_text l -> _foldsAsList self = Ret (map Z.of_N l))
  /\ (forall d requested,
        _datasetPath fs self = Some d ->
        _foldsAsList self = Ret requested ->
        _configurationFolder fs self = Ret (parent d)
        /\ _getFoldPaths fs self
           = Ret (map (fun i => (i, joinpath (parent d) ("fold_" +:+ Py.str_int i)))
                    requested)
        /\ _getMissingFolds fs self
           = Ret (List.filter
                    (fun i => negb (fs_exists fs
                                      (joinpath (parent d) ("fold_" +:+ Py.str_int i))))
                    requested)
        /\ _getFoldsWithInvalidWeights fs self
           = Ret (List.filter
                    (fun i => negb (fs_exists fs
                                      (joinpath
                                         (joinpath (parent d) ("fold_" +:+ Py.str_int i))
                                         (_getCheckpointName self))))
                    requested)).
Proof.
  split; [apply foldsAsList_empty | split; [apply foldsAsList_text|]].
  intros d requested Hd Hf. split; [|split; [|split]].
  - now apply configurationFolder_found.
  - now apply getFoldPaths_found.
  - now apply getMissingFolds_found.
  - rewrite getCheckpointName_spec. now apply getFoldsWithInvalidWeights_found.
Qed.

Lemma folds_decoding_witness :
  let self := with_model "0,1" "models" in
  folds self = folds_text [0%N; 1%N]
  /\ _foldsAsList self = Ret [0; 1]
  /\ _foldsAsList (with_model "" "models") = Ret [0]
  /\ _getFoldPaths sample_fs self
     = Ret [(0, joinpath conf_dir "fold_0"); (1, joinpath conf_dir "fold_1")].
Proof.
  intros self.
  assert (Ht : folds self = folds_text [0%N; 1%N]) by reflexivity.
  assert (Hl : [0%N; 1%N] <> []) by discriminate.
  pose proof (proj1 (proj2 (folds_decoding sample_fs self)) _ Hl Ht) as Hf.
  split; [exact Ht | split; [exact Hf | split]].
  - exact (proj1 (folds_decoding sample_fs (with_model "" "models")) eq_refl).
  - assert (Hd : _datasetPath sample_fs self = Some (joinpath conf_dir "dataset.json"))
      by (vm_compute; reflexivity).
    exact (proj1 (proj2 (proj2 (proj2 (folds_decoding sample_fs self))
                           _ _ Hd Hf))).
Defined.

(** ** Paths and their strings *)

Lemma root_of_other a r : Ascii.eqb a "/" = false -> root_of (String a r) = "".
Proof.
  intros Ha. each_char a; vm_compute in Ha; try discriminate Ha; reflexivity.
Qed.

Lemma root_of_slash a r :
  Ascii.eqb a "/" = false -> root_of (String "/" (String a r)) = "/".
Proof.
  intros Ha. each_char a; vm_compute in Ha; try discriminate Ha; reflexivity.
Qed.

Lemma root_of_slash2 a r :
  Ascii.eqb a "/" = false -> root_of (String "/" (String "/" (String a r))) = "//".
Proof.
  intros Ha. each_char a; vm_compute in Ha; try discriminate Ha; reflexivity.
Qed.

Lemma name_ok_head x :
  name_ok x = true -> exists a r, x = String a r /\ Ascii.eqb a "/" = false.
Proof.
  unfold name_ok, keep_name. destruct x as [|a r]; [discriminate|].
  cbn [Py.all_chars]. intros [_ [Ha _]%andb_true_iff]%andb_true_iff.
  exists a, r. split; [reflexivity | now apply negb_true_iff].
Qed.

Lemma join_head sep a r xs : exists rest, Py.join sep (String a r :: xs) = String a rest.
Proof. destruct xs; cbn [Py.join]; eauto. Qed.

Lemma filter_keep_names l : forallb name_ok l = true -> List.filter keep_name l = l.
Proof.
  induction l as [|x l IH]; [reflexivity|]. cbn [forallb List.filter].
  intros [Hx Hl]%andb_true_iff. unfold name_ok in Hx.
  apply andb_true_iff in Hx as [-> _]. now rewrite IH.
Qed.

Lemma names_no_slash l :
  forallb name_ok l = true ->
  Forall (fun f => Py.all_chars (fun a => negb (Ascii.eqb a "/")) f = true) l.
Proof.
  intros Hl. apply List.Forall_forall. intros x Hx.
  pose proof (proj1 (forallb_forall _ _) Hl x Hx) as Hok.
  unfold name_ok in Hok. now apply andb_true_iff in Hok as [_ ?].
Qed.

(** [Path(str(p)) == p] *)
Lemma Path_of_str_of_Path (p : Path) : path_wf p = true -> Path_of_str (str_of_Path p) = p.
Proof.
  destruct p as [root names]. unfold path_wf. cbn [path_root path_names].
  intros [Hroot Hnames]%andb_true_iff.
  pose proof (names_no_slash names Hnames) as Hslash.
  pose proof (filter_keep_names names Hnames) as Hkeep.
  destruct names as [|x xs].
  { apply orb_true_iff in Hroot as [[Hr|Hr]%orb_true_iff|Hr];
      apply String.eqb_eq in Hr; subst root; reflexivity. }
  destruct (name_ok_head x) as (a & r & -> & Ha).
  { cbn [forallb] in Hnames. now apply andb_true_iff in Hnames as [? _]. }
  destruct (join_head "/" a r xs) as [rest Hrest].
  unfold str_of_Path, Path_of_str. cbn [path_root path_names].
  apply orb_true_iff in Hroot as [[Hr|Hr]%orb_true_iff|Hr];
    apply String.eqb_eq in Hr; subst root.
  - change ("" +:+ Py.join "/" (String a r :: xs)) with (Py.join "/" (String a r :: xs)).
    rewrite (split_join "/" _ _ Hslash), Hkeep, Hrest, (root_of_other _ _ Ha).
    reflexivity.
  - change ("/" +:+ Py.join "/" (String a r :: xs))
      with (Py.join "/" ("" :: String a r :: xs)) at 2.
    rewrite (split_join "/" "" (String a r :: xs))
      by (constructor; [reflexivity | exact Hslash]).
    change (List.filter keep_name ("" :: String a r :: xs))
      with (List.filter keep_name (String a r :: xs)).
    rewrite Hkeep.
    change ("/" +:+ Py.join "/" (String a r :: xs))
      with (String "/" (Py.join "/" (String a r :: xs))).
    rewrite Hrest, (root_of_slash _ _ Ha). reflexivity.
  - change ("//" +:+ Py.join "/" (String a r :: xs))
      with (Py.join "/" ("" :: "" :: String a r :: xs)) at 2.
    rewrite (split_join "/" "" ("" :: String a r :: xs))
      by (constructor; [reflexivity | constructor; [reflexivity | exact Hslash]]).
    change (List.filter keep_name ("" :: "" :: String a r :: xs))
      with (List.filter keep_name (String a r :: xs)).
    rewrite Hkeep.
    change ("//" +:+ Py.join "/" (String a r :: xs))
      with (String "/" (String "/" (Py.join "/" (String a r :: xs)))).
    rewrite Hrest, (root_of_slash2 _ _ Ha). reflexivity.
Qed.

(** ** Saving to and restoring from the settings *)

Lemma dumps_asDict self :
  json_dumps _PathEncoder.default (PDict (asDict self)) = Ret (JsonDoc (settings_doc self)).
Proof. reflexivity. Qed.

Lemma loads_settings_doc self :
  json_loads_hook _PathEncoder.decodePath (JsonDoc (settings_doc self))
  = Ret (PDict (asDict (mkParameter (folds self) (device self) (stepSize self)
                          (disableTta self) (nProcessPreprocessing self)
                          (nProcessSegmentationExport self) (checkPointName self)
                          (Path_of_str (str_of_Path (modelPath self)))))).
Proof. reflexivity. Qed.

Lemma eta_parameter self :
  mkParameter (folds self) (device self) (stepSize self) (disableTta self)
    (nProcessPreprocessing self) (nProcessSegmentationExport self)
    (checkPointName self) (modelPath self) = self.
Proof. now destruct self. Qed.

Lemma loads_settings_doc_wf self :
  path_wf (modelPath self) = true ->
  json_loads_hook _PathEncoder.decodePath (JsonDoc (settings_doc self))
  = Ret (PDict (asDict self)).
Proof.
  intros Hwf. rewrite loads_settings_doc, (Path_of_str_of_Path _ Hwf).
  now rewrite eta_parameter.
Qed.

Lemma stored_text_key (settings : QtSettings) (key : string) :
  stored_text settings key
  = match passed settings with Some s => s | None => application settings end
      !! (if truthy (PStr key) then key else _defaultSettingsKey).
Proof.
  unfold stored_text. cbn [truthy]. now destruct (String.eqb key "").
Qed.

(** One assignment of the loop, with the projections of the new
    instance reduced. *)
Ltac assigned Hstep E :=
  rewrite (Hstep _ _ _ _ _ E);
  cbn [folds device stepSize disableTta nProcessPreprocessing
       nProcessSegmentationExport checkPointName modelPath].

Section Restoring.
Context `{ParameterPack}.

Lemma restore_own_fields self i : pack_accepts self -> restore i (asDict self) = Ret self.
Proof.
  intros Hacc. unfold asDict.
  assert (Hstep : forall j k v j' r,
             setValue j k v = Ret j' -> restore j ((k, v) :: r) = restore j' r).
  { intros j k v j' r Hs. cbn [restore]. now rewrite Hs. }
  assigned Hstep (proj1 (Hacc i)).
  match goal with |- restore ?j _ = _ => assigned Hstep (proj1 (proj2 (Hacc j))) end.
  match goal with |- restore ?j _ = _ =>
    assigned Hstep (proj1 (proj2 (proj2 (Hacc j)))) end.
  match goal with |- restore ?j _ = _ =>
    assigned Hstep (proj1 (proj2 (proj2 (proj2 (Hacc j))))) end.
  match goal with |- restore ?j _ = _ =>
    assigned Hstep (proj1 (proj2 (proj2 (proj2 (proj2 (Hacc j)))))) end.
  match goal with |- restore ?j _ = _ =>
    assigned Hstep (proj1 (proj2 (proj2 (proj2 (proj2 (proj2 (Hacc j))))))) end.
  match goal with |- restore ?j _ = _ =>
    assigned Hstep (proj1 (proj2 (proj2 (proj2 (proj2 (proj2 (proj2 (Hacc j)))))))) end.
  match goal with |- restore ?j _ = _ =>
    assigned Hstep (proj2 (proj2 (proj2 (proj2 (proj2 (proj2 (proj2 (Hacc j)))))))) end.
  cbn [restore]. now rewrite eta_parameter.
Qed.

Lemma fromSettings_stored settings key :
  fromSettings settings key
  = (val_dict ← (if text_truthy (default EmptyText (stored_text settings key))
                 then json_loads_hook _PathEncoder.decodePath
                        (default EmptyText (stored_text settings key))
                 else Ret (PDict []));
     kvs ← items val_dict;
     restore defaults kvs).
Proof. unfold fromSettings. now rewrite stored_text_key. Qed.

Lemma restore_type_errors i d :
  (forall j k x e, In (k, x) d -> setValue j k x = Raise e -> e = TypeError) ->
  restore i d = Ret (restore_skipping i d).
Proof.
  revert i. induction d as [|[k x] d IH]; intros i Hd; [reflexivity|].
  cbn [restore restore_skipping].
  destruct (setValue i k x) as [i'|e] eqn:Hs.
  - apply IH. intros j k' x' e' Hin. apply Hd. now right.
  - rewrite (Hd i k x e (or_introl eq_refl) Hs).
    apply IH. intros j k' x' e' Hin. apply Hd. now right.
Qed.

Lemma restore_other_error i k x r e :
  setValue i k x = Raise e -> e <> TypeError -> restore i ((k, x) :: r) = Raise e.
Proof.
  intros Hs He. cbn [restore]. rewrite Hs. destruct e; try reflexivity. contradiction.
Qed.

End Restoring.

Lemma toSettings_stores self settings key :
  exists settings',
    toSettings self settings key = Ret settings'
    /\ stored_text settings' key = Some (JsonDoc (settings_doc self)).
Proof.
  unfold toSettings. rewrite dumps_asDict, bind_Ret.
  eexists. split; [reflexivity|]. rewrite stored_text_key.
  destruct (passed settings); cbn [passed application]; apply lookup_insert_eq.
Qed.

(** C3. For every configuration and every key, [toSettings] followed by
    [fromSettings] gives the configuration back: the text stored is the
    JSON object of the eight fields with the model path tagged as
    [{"_path": str}], the hook decodes it to the eight field values with
    the model path a path again, and these are assigned one by one.
    (The pack is assumed to take the configuration's own field values,
    and the model path to be one [Path(...)] can produce.) *)
Theorem settings_roundtrip `{ParameterPack}
    (self : InferenceParameters) (settings : QtSettings) (key : string) :
  path_wf (modelPath self) = true ->
  pack_accepts self ->
  exists settings',
    toSettings self settings key = Ret settings'
    /\ stored_text settings' key = Some (JsonDoc (settings_doc self))
    /\ json_loads_hook _PathEncoder.decodePath (JsonDoc (settings_doc self))
       = Ret (PDict (asDict self))
    /\ fromSettings settings' key = Ret self.
Proof.
  intros Hwf Hacc.
  destruct (toSettings_stores self settings key) as (settings' & Hto & Hst).
  exists settings'. split; [exact Hto | split; [exact Hst | split]].
  - now apply loads_settings_doc_wf.
  - rewrite fromSettings_stored, Hst. cbn [default from_option id text_truthy].
    rewrite (loads_settings_doc_wf self Hwf), bind_Ret. cbn [items].
    rewrite bind_Ret. now apply restore_own_fields.
Qed.

Lemma checkedPack_accepts unknown self :
  existsb (String.eqb (device self)) ["cuda"; "cpu"; "mps"] = true ->
  SFleb float_zero (stepSize self) && SFleb (stepSize self) float_one = true ->
  (1 <=? nProcessPreprocessing self) && (nProcessPreprocessing self <=? 999) = true ->
  (1 <=? nProcessSegmentationExport self) && (nProcessSegmentationExport self <=? 999)
  = true ->
  pack_accepts (H:=checkedPack unknown) self.
Proof.
  intros Hdev Hstep Hnpp Hnps i. unfold setValue, checkedPack, checked_setValue.
  cbn [String.eqb Ascii.eqb Bool.eqb]. rewrite Hdev, Hstep, Hnpp, Hnps.
  repeat split.
Qed.

Lemma settings_roundtrip_witness :
  let self := mkParameter "0,1" "mps" float_one false 4 2 "best.pth"
                (Path_of_str "/data/models") in
  path_wf (modelPath self) = true
  /\ pack_accepts (H:=checkedPack ValueError) self
  /\ exists settings',
       toSettings self fresh_settings "" = Ret settings'
       /\ fromSettings (H:=checkedPack ValueError) settings' "" = Ret self.
Proof.
  intros self.
  assert (Hwf : path_wf (modelPath self) = true) by reflexivity.
  assert (Hacc : pack_accepts (H:=checkedPack ValueError) self)
    by (apply checkedPack_accepts; reflexivity).
  split; [exact Hwf | split; [exact Hacc|]].
  destruct (settings_roundtrip (H:=checkedPack ValueError) self fresh_settings "" Hwf Hacc)
    as (settings' & Hto & _ & _ & Hfrom).
  exists settings'. split; [exact Hto | exact Hfrom].
Defined.

Section RestoringFully.
Context `{ParameterPack}.

Lemma restore_returns i d p : restore i d = Ret p -> p = restore_skipping i d.
Proof.
  revert i. induction d as [|[k x] d IH]; intros i; cbn [restore restore_skipping].
  - now intros [= <-].
  - destruct (setValue i k x) as [i'|e]; [apply IH|].
    destruct e; try discriminate. apply IH.
Qed.

Lemma restore_at i pre k x post j e :
  restore i pre = Ret j -> setValue j k x = Raise e -> e <> TypeError ->
  restore i (pre ++ (k, x) :: post) = Raise e.
Proof.
  revert i. induction pre as [|[k0 x0] pre IH]; intros i Hpre Hs He.
  - injection Hpre as <-. now apply restore_other_error.
  - cbn [app restore] in *. destruct (setValue i k0 x0) as [i'|e0]; [now apply IH|].
    destruct e0; try discriminate Hpre. now apply IH.
Qed.

Lemma restore_raises i d e :
  restore i d = Raise e ->
  exists pre k x post j,
    d = (pre ++ (k, x) :: post)%list /\ restore i pre = Ret j
    /\ setValue j k x = Raise e /\ e <> TypeError.
Proof.
  revert i. induction d as [|[k x] d IH]; intros i Hr; [discriminate|].
  cbn [restore] in Hr. destruct (setValue i k x) as [i'|e0] eqn:Hs.
  - destruct (IH i' Hr) as (pre & k1 & x1 & post & j & -> & Hpre & Hset & He).
    exists ((k, x) :: pre), k1, x1, post, j. cbn [app restore]. rewrite Hs. auto.
  - assert (Hskip : e0 = TypeError -> exists pre k1 x1 post j,
               ((k, x) :: d = pre ++ (k1, x1) :: post)%list /\ restore i pre = Ret j
               /\ setValue j k1 x1 = Raise e /\ e <> TypeError).
    { intros ->. destruct (IH i Hr) as (pre & k1 & x1 & post & j & -> & Hpre & Hset & He).
      exists ((k, x) :: pre), k1, x1, post, j. cbn [app restore]. rewrite Hs. auto. }
    destruct e0; try (now apply Hskip);
      injection Hr as <-; exists [], k, x, d, i;
      (split; [reflexivity | split; [reflexivity | split; [exact Hs | discriminate]]]).
Qed.

Lemma restore_refused i d k x :
  In (k, x) d ->
  (forall j, exists e, setValue j k x = Raise e /\ e <> TypeError) ->
  exists e, restore i d = Raise e /\ e <> TypeError.
Proof.
  intros Hin Href. revert i. induction d as [|[k0 x0] d IH]; intros i; [destruct Hin|].
  cbn [restore]. destruct (setValue i k0 x0) as [i'|e0] eqn:Hs.
  - destruct Hin as [[= -> ->]|Hin]; [|now apply IH].
    destruct (Href i) as (e & He & _). congruence.
  - assert (Hskip : e0 = TypeError -> exists e, restore i d = Raise e /\ e <> TypeError).
    { intros ->. destruct Hin as [[= -> ->]|Hin]; [|now apply IH].
      destruct (Href i) as (e & He & Hne). congruence. }
    destruct e0; try (now apply Hskip); eexists; (split; [reflexivity | discriminate]).
Qed.

End RestoringFully.

(** C7, as the code has it. [fromSettings] returns a configuration when
    nothing, or the empty text, is stored under the key (the defaults),
    and when the stored text is JSON that the path hook decodes to a
    dict on whose entries [setValue] raises nothing but [TypeError]:
    each such entry is skipped, the instance staying as it was. It
    raises when the stored text is not JSON, when the decoding raises,
    when what is decoded is not a dict, and as soon as [setValue]
    raises anything other than [TypeError] on an entry, whatever the
    place of the entry; and these are the only ways it ends. *)
Theorem fromSettings_best_effort `{ParameterPack} (settings : QtSettings) (key : string) :
  (stored_text settings key = None \/ stored_text settings key = Some EmptyText ->
   fromSettings settings key = Ret defaults)
  /\ (forall v d,
        stored_text settings key = Some (JsonDoc v) ->
        decode _PathEncoder.decodePath v = Ret (PDict d) ->
        (forall i k x e, In (k, x) d -> setValue i k x = Raise e -> e = TypeError) ->
        fromSettings settings key = Ret (restore_skipping defaults d))
  /\ (forall i k x r,
        setValue i k x = Raise TypeError ->
        restore_skipping i ((k, x) :: r) = restore_skipping i r)
  /\ (stored_text settings key = Some NotJson ->
      fromSettings settings key = Raise JSONDecodeError)
  /\ (forall v e,
        stored_text settings key = Some (JsonDoc v) ->
        decode _PathEncoder.decodePath v = Raise e ->
        fromSettings settings key = Raise e)
  /\ (forall v pv,
        stored_text settings key = Some (JsonDoc v) ->
        decode _PathEncoder.decodePath v = Ret pv ->
        (forall d, pv <> PDict d) ->
        fromSettings settings key = Raise AttributeError)
  /\ (forall v d,
        stored_text settings key = Some (JsonDoc v) ->
        decode _PathEncoder.decodePath v = Ret (PDict d) ->
        (forall pre k x post j e,
            d = (pre ++ (k, x) :: post)%list ->
            restore defaults pre = Ret j ->
            setValue j k x = Raise e -> e <> TypeError ->
            fromSettings settings key = Raise e)
        /\ (forall k x,
              In (k, x) d ->
              (forall j, exists e, setValue j k x = Raise e /\ e <> TypeError) ->
              exists e, fromSettings settings key = Raise e /\ e <> TypeError)
        /\ (forall p,
              fromSettings settings key = Ret p -> p = restore_skipping defaults d)
        /\ (forall e,
              fromSettings settings key = Raise e ->
              exists pre k x post j,
                d = (pre ++ (k, x) :: post)%list /\ restore defaults pre = Ret j
                /\ setValue j k x = Raise e /\ e <> TypeError)).
Proof.
  split; [|split; [|split; [|split; [|split; [|split]]]]].
  - intros [Hs|Hs]; rewrite fromSettings_stored, Hs; reflexivity.
  - intros v d Hs Hdec Hd. rewrite fromSettings_stored, Hs.
    cbn [default from_option id text_truthy json_loads_hook].
    rewrite Hdec, bind_Ret. cbn [items]. rewrite bind_Ret.
    now apply restore_type_errors.
  - intros i k x r Hs. cbn [restore_skipping]. now rewrite Hs.
  - intros Hs. rewrite fromSettings_stored, Hs. reflexivity.
  - intros v e Hs Hdec. rewrite fromSettings_stored, Hs.
    cbn [default from_option id text_truthy json_loads_hook]. now rewrite Hdec.
  - intros v pv Hs Hdec Hpv. rewrite fromSettings_stored, Hs.
    cbn [default from_option id text_truthy json_loads_hook].
    rewrite Hdec, bind_Ret. destruct pv; try reflexivity. now destruct (Hpv d).
  - intros v d Hs Hdec.
    assert (Hfrom : fromSettings settings key = restore defaults d).
    { rewrite fromSettings_stored, Hs.
      cbn [default from_option id text_truthy json_loads_hook].
      rewrite Hdec, bind_Ret. cbn [items]. now rewrite bind_Ret. }
    rewrite Hfrom. split; [|split; [|split]].
    + intros pre k x post j e -> Hpre Hset He. now apply (restore_at _ _ _ _ _ j).
    + intros k x Hin Href. now apply (restore_refused _ _ k x).
    + apply restore_returns.
    + apply restore_raises.
Qed.

Lemma fromSettings_best_effort_witness :
  let refused := JObj [("folds", JStr "1"); ("nProcessPreprocessing", JInt 0)] in
  stored_text (settings_holding (JsonDoc partial_doc)) "" = Some (JsonDoc partial_doc)
  /\ fromSettings (H:=checkedPack TypeError) (settings_holding (JsonDoc partial_doc)) ""
     = Ret (mkParameter "1" "cuda" float_half true 1 1 "" Path_)
  /\ fromSettings (H:=checkedPack TypeError) fresh_settings "" = Ret defaults
  /\ stored_text (settings_holding (JsonDoc refused)) "" = Some (JsonDoc refused)
  /\ fromSettings (H:=checkedPack TypeError) (settings_holding (JsonDoc refused)) ""
     = Raise ValueError.
Proof.
  intros refused.
  assert (Hs : stored_text (settings_holding (JsonDoc partial_doc)) ""
               = Some (JsonDoc partial_doc)) by (vm_compute; reflexivity).
  assert (Hr : stored_text (settings_holding (JsonDoc refused)) ""
               = Some (JsonDoc refused)) by (vm_compute; reflexivity).
  split; [exact Hs | split; [|split; [|split; [exact Hr|]]]].
  - refine (proj1 (proj2 (fromSettings_best_effort (H:=checkedPack TypeError)
                            (settings_holding (JsonDoc partial_doc)) ""))
              partial_doc
              [("folds", PStr "1"); ("colour", PInt 3); ("stepSize", PStr "fast")]
              Hs eq_refl _).
    intros i k x e [Hin|[Hin|[Hin|[]]]] Hset; injection Hin as <- <-;
      vm_compute in Hset; congruence.
  - apply (proj1 (fromSettings_best_effort (H:=checkedPack TypeError) fresh_settings "")).
    left. vm_compute. reflexivity.
  - pose proof (proj2 (proj2 (proj2 (proj2 (proj2 (proj2
                  (fromSettings_best_effort (H:=checkedPack TypeError)
                     (settings_holding (JsonDoc refused)) "")))))))
      as Hgen.
    specialize (Hgen refused
                  [("folds", PStr "1"); ("nProcessPreprocessing", PInt 0)] Hr eq_refl).
    refine (proj1 Hgen [("folds", PStr "1")] "nProcessPreprocessing" (PInt 0) []
              (mkParameter "1" "cuda" float_half true 1 1 "" Path_) ValueError
              eq_refl eq_refl eq_refl _).
    discriminate.
Defined.

(** C7, as the claim states it, fails: a stored text that is not JSON,
    a stored JSON array, a stored object with a top-level "_path" and a
    stored path tag that holds no string each make [fromSettings] raise;
    so does a stored value that a pack refuses with a [ValueError]. *)
Lemma fromSettings_raises :
  fromSettings (H:=checkedPack TypeError) (settings_holding NotJson) ""
  = Raise JSONDecodeError
  /\ fromSettings (H:=checkedPack TypeError) (settings_holding (JsonDoc (JArr []))) ""
     = Raise AttributeError
  /\ fromSettings (H:=checkedPack TypeError)
       (settings_holding (JsonDoc (JObj [("_path", JStr "models")]))) ""
     = Raise AttributeError
  /\ fromSettings (H:=checkedPack TypeError)
       (settings_holding (JsonDoc (JObj [("modelPath", JObj [("_path", JInt 3)])]))) ""
     = Raise TypeError
  /\ fromSettings (H:=checkedPack TypeError)
       (settings_holding (JsonDoc (JObj [("nProcessPreprocessing", JInt 0)]))) ""
     = Raise ValueError.
Proof.
  split; [|split; [|split; [|split]]]; vm_compute; reflexivity.
Qed.

(** * Further properties of the code *)

(** ** What [asArgList] raises and returns *)

Lemma mapM_Raise {A B} (f : A -> PyResult B) (l : list A) (e : PyExn) :
  mapM f l = Raise e -> exists x, In x l /\ f x = Raise e.
Proof.
  induction l as [|x l IH]; [discriminate|]. cbn [mapM].
  destruct (f x) as [y|e'] eqn:Hx.
  - rewrite bind_Ret. destruct (mapM f l) as [ys|e''] eqn:Hl; [discriminate|].
    rewrite bind_Raise. intros [= ->]. destruct (IH eq_refl) as (z & Hz & Hfz).
    exists z. split; [now right | exact Hfz].
  - rewrite bind_Raise. intros [= ->]. exists x. split; [now left | exact Hx].
Qed.

Lemma int_raises_ValueError s e : Py.int s = Raise e -> e = ValueError.
Proof.
  unfold Py.int.
  assert (Hd : forall sign t,
             match Py.int_digits false 0 t with
             | Some n => Ret (sign * Z.of_N n)
             | None => Raise ValueError
             end = Raise e -> e = ValueError).
  { intros sign t. destruct (Py.int_digits false 0 t); congruence. }
  destruct (Py.int_rstrip (Py.int_lstrip s)) as [|a t]; [apply (Hd 1 "")|].
  each_char a; first [apply (Hd 1 t) | apply (Hd (-1) t) | apply (Hd 1 (String _ t))].
Qed.

Lemma foldsAsList_raises_ValueError self e :
  _foldsAsList self = Raise e -> e = ValueError.
Proof.
  unfold _foldsAsList. destruct (truthy (PStr (folds self))); [|discriminate].
  intros (x & _ & Hx)%mapM_Raise. exact (int_raises_ValueError _ _ Hx).
Qed.

(** X1. [asArgList] raises [ImportError], before anything else, when
    torch cannot be imported. Otherwise it ends in one of three ways,
    decided by [isValid]: it passes on what [isValid] raises, it raises
    the configuration error when [isValid] returns false, and it
    returns a list when [isValid] returns true: after the validation
    has passed, deriving the folders, indexing the name parts and
    decoding the folds again do not fail. *)
Theorem asArgList_outcomes
    (fs : FileSystem) (self : InferenceParameters) (torch : option bool)
    (inDir outDir : Path) :
  match torch, isValid fs self with
  | None, _ => asArgList_importing torch fs self inDir outDir = Raise ImportError
  | Some _, Raise e => asArgList_importing torch fs self inDir outDir = Raise e
  | Some _, Ret (false, reason) =>
      asArgList_importing torch fs self inDir outDir
      = Raise (RuntimeError ("Invalid nnUNet configuration. " +:+ reason))
  | Some _, Ret (true, _) =>
      exists args, asArgList_importing torch fs self inDir outDir = Ret args
  end.
Proof.
  destruct torch as [cuda|]; [|reflexivity]. cbn [asArgList_importing].
  destruct (isValid fs self) as [[[|] reason]|e] eqn:Hv.
  - destruct (isValid_outcomes _ _ _ _ Hv) as [[_ ->]|[? _]]; [|discriminate].
    destruct (asArgList_valid fs self cuda inDir outDir Hv)
      as (d & requested & tr & pl & cf & _ & _ & _ & Hargs).
    eauto.
  - now apply asArgList_invalid.
  - unfold asArgList. now rewrite Hv.
Qed.

(** X2. For a valid configuration the argument list is, in this order:
    -i and -o with the two directories, -d with the name of the folder
    two levels above the dataset file, -tr, -p and -c with the three
    parts of the configuration folder name, -f followed by one argument
    per requested fold, -npp, -nps, -step_size, and then the device,
    checkpoint and TTA arguments; it has 23 entries plus one per fold,
    plus one when TTA is disabled. *)
Theorem asArgList_argument_list
    (fs : FileSystem) (self : InferenceParameters) (cuda : bool) (inDir outDir : Path) :
  isValid fs self = Ret (true, "") ->
  exists d requested tr pl cf args,
    _datasetPath fs self = Some d
    /\ _foldsAsList self = Ret requested
    /\ Py.split "__" (name (parent d)) = [tr; pl; cf]
    /\ asArgList fs self cuda inDir outDir = Ret args
    /\ args = (leading_arguments self inDir outDir (name (parent (parent d))) tr pl cf
                 requested
               ++ device_arguments self (if cuda then device self else "cpu"))%list
    /\ length args
       = (23 + length requested + (if disableTta self then 1 else 0))%nat.
Proof.
  intros Hv.
  destruct (asArgList_valid fs self cuda inDir outDir Hv)
    as (d & requested & tr & pl & cf & Hd & Hf & Hparts & Hargs).
  exists d, requested, tr, pl, cf. eexists.
  split; [exact Hd | split; [exact Hf | split; [exact Hparts | split; [exact Hargs|]]]].
  split; [reflexivity|].
  unfold device_arguments. rewrite !length_app, length_map.
  destruct (disableTta self); cbn [length]; lia.
Qed.

Lemma asArgList_argument_list_witness :
  let self := with_model "0" "models" in
  isValid sample_fs self = Ret (true, "")
  /\ exists args,
       asArgList sample_fs self true (Path_of_str "/in") (Path_of_str "/out") = Ret args
       /\ length args = 25%nat.
Proof.
  intros self.
  assert (Hv : isValid sample_fs self = Ret (true, "")) by (vm_compute; reflexivity).
  split; [exact Hv|].
  destruct (asArgList_argument_list sample_fs self true (Path_of_str "/in")
              (Path_of_str "/out") Hv)
    as (d & requested & tr & pl & cf & args & _ & Hf & _ & Hargs & _ & Hlen).
  exists args. split; [exact Hargs|].
  assert (Hreq : _foldsAsList self = Ret [0]) by reflexivity.
  rewrite Hreq in Hf. apply Ret_inj in Hf. subst requested. exact Hlen.
Defined.

Lemma isValid_set_disableTta fs self b :
  isValid fs (set_disableTta self b) = isValid fs self.
Proof.
  unfold isValid, _isDatasetPathValid, _getMissingFolds, _getFoldsWithInvalidWeights,
    _getFoldPaths, _configurationNameParts, _configurationFolder, _datasetPath,
    _foldsAsList, _getCheckpointName, reason_dataset, reason_weights, set_disableTta.
  cbn [folds checkPointName modelPath]. reflexivity.
Qed.

(** X3. Setting [disableTta] changes the outcome of [asArgList] in one
    way only: the list it returns is the list returned without it,
    with "--disable_tta" appended; what it raises is unchanged. *)
Theorem asArgList_disable_tta
    (fs : FileSystem) (self : InferenceParameters) (cuda : bool) (inDir outDir : Path) :
  asArgList fs (set_disableTta self true) cuda inDir outDir
  = (fun args => (args ++ [PStr "--disable_tta"])%list)
      <$> asArgList fs (set_disableTta self false) cuda inDir outDir.
Proof.
  destruct (isValid fs self) as [[[|] reason]|e] eqn:Hv.
  - destruct (isValid_outcomes _ _ _ _ Hv) as [[_ ->]|[? _]]; [|discriminate].
    assert (Ht : isValid fs (set_disableTta self true) = Ret (true, ""))
      by now rewrite isValid_set_disableTta.
    assert (Hf : isValid fs (set_disableTta self false) = Ret (true, ""))
      by now rewrite isValid_set_disableTta.
    destruct (asArgList_valid fs _ cuda inDir outDir Ht)
      as (d & requested & tr & pl & cf & Hd & Hreq & Hparts & ->).
    destruct (asArgList_valid fs _ cuda inDir outDir Hf)
      as (d' & requested' & tr' & pl' & cf' & Hd' & Hreq' & Hparts' & ->).
    change (_datasetPath fs (set_disableTta self false))
      with (_datasetPath fs (set_disableTta self true)) in Hd'.
    change (_foldsAsList (set_disableTta self false))
      with (_foldsAsList (set_disableTta self true)) in Hreq'.
    rewrite Hd in Hd'. injection Hd' as <-.
    rewrite Hreq in Hreq'. apply Ret_inj in Hreq'. subst requested'.
    rewrite Hparts in Hparts'. injection Hparts' as <- <- <-.
    rewrite fmap_Ret. f_equal. unfold device_arguments.
    cbn [set_disableTta disableTta nProcessPreprocessing nProcessSegmentationExport
         stepSize device].
    change (_getCheckpointName (set_disableTta self true))
      with (_getCheckpointName (set_disableTta self false)).
    rewrite app_nil_r, !app_assoc. reflexivity.
  - rewrite !(asArgList_invalid fs _ cuda inDir outDir reason)
      by now rewrite isValid_set_disableTta.
    reflexivity.
  - unfold asArgList. rewrite !isValid_set_disableTta, Hv. reflexivity.
Qed.

(** ** Decoding the folds text: all integers, and the errors *)

Lemma numeral_char_other (a : ascii) :
  numeral_char a = true -> Py.isspace a = false /\ Ascii.eqb a "," = false.
Proof.
  each_char a; intros Ha; vm_compute in Ha; try discriminate Ha; vm_compute; auto.
Qed.

Lemma str_int_neg (p : positive) :
  Py.str_int (Z.neg p) = String "-" (NilEmpty.string_of_uint (Pos.to_uint p)).
Proof.
  unfold Py.str_int. cbn [Z.to_int NilZero.string_of_int]. f_equal.
  unfold NilZero.string_of_uint.
  pose proof (DecimalPos.Unsigned.to_uint_nonnil p) as Hp.
  destruct (Pos.to_uint p); [contradiction | reflexivity ..].
Qed.

Lemma str_int_cases (z : Z) :
  (0 <= z /\ Py.str_int z = Py.str_int (Z.of_N (Z.to_N z)))
  \/ (exists p, z = Z.neg p).
Proof.
  destruct z as [|p|p]; [left | left | right; eauto]; split; try lia; reflexivity.
Qed.

Lemma str_int_numeral (z : Z) : Py.all_chars numeral_char (Py.str_int z) = true.
Proof.
  destruct (str_int_cases z) as [[_ ->]|[p ->]].
  - apply (all_chars_weaken Py.isdigit); [|apply str_int_digits].
    intros c Hc. unfold numeral_char. now rewrite Hc.
  - rewrite str_int_neg. cbn [Py.all_chars].
    change (numeral_char "-") with true. cbn [andb].
    apply (all_chars_weaken Py.isdigit); [|apply uint_all_digits].
    intros c Hc. unfold numeral_char. now rewrite Hc.
Qed.

Lemma numeral_no_space s :
  Py.all_chars numeral_char s = true ->
  Py.all_chars (fun c => negb (Py.isspace c)) s = true.
Proof.
  apply all_chars_weaken. intros c Hc. now rewrite (proj1 (numeral_char_other c Hc)).
Qed.

Lemma str_int_nonempty_Z (z : Z) : Py.str_int z <> "".
Proof.
  destruct (str_int_cases z) as [[_ ->]|[p ->]]; [apply str_int_nonempty|].
  now rewrite str_int_neg.
Qed.

(** [int(str(z)) == z] *)
Lemma int_str_int_Z (z : Z) : Py.int (Py.str_int z) = Ret z.
Proof.
  destruct (str_int_cases z) as [[Hz Hs]|[p ->]].
  - rewrite Hs, int_str_int. f_equal. lia.
  - unfold Py.int.
    rewrite (int_strip_no_space _ (numeral_no_space _ (str_int_numeral (Z.neg p)))).
    rewrite str_int_neg.
    rewrite (int_digits_uint _ false
               (or_intror (DecimalPos.Unsigned.to_uint_nonnil p))).
    rewrite DecimalPos.Unsigned.of_to. f_equal.
Qed.

Lemma mapM_int_str_int_Z (l : list Z) : mapM Py.int (map Py.str_int l) = Ret l.
Proof.
  induction l as [|z l IH]; [reflexivity|].
  cbn [map mapM]. rewrite int_str_int_Z, bind_Ret, IH. reflexivity.
Qed.

Lemma numerals_text_fields (l : list Z) :
  Forall (fun f => Py.all_chars (fun a => negb (Ascii.eqb a ",")) f = true)
         (map Py.str_int l).
Proof.
  apply List.Forall_forall. intros f [z [<- _]]%in_map_iff.
  apply (all_chars_weaken numeral_char); [|apply str_int_numeral].
  intros c Hc. now rewrite (proj2 (numeral_char_other c Hc)).
Qed.

Lemma numerals_text_no_space (l : list Z) :
  Py.all_chars (fun c => negb (Py.isspace c)) (Py.join "," (map Py.str_int l)) = true.
Proof.
  apply (all_chars_join "," (fun c => negb (Py.isspace c))); [reflexivity|].
  apply List.Forall_forall. intros f [z [<- _]]%in_map_iff.
  apply numeral_no_space, str_int_numeral.
Qed.

Lemma numerals_text_nonempty (l : list Z) :
  l <> [] -> Py.join "," (map Py.str_int l) <> "".
Proof.
  destruct l as [|z l]; [contradiction|]. intros _.
  pose proof (str_int_nonempty_Z z) as Hz. cbn [map Py.join].
  destruct (Py.str_int z) as [|a r]; [contradiction|].
  destruct (map _ l); discriminate.
Qed.

Lemma foldsAsList_numerals self (l : list Z) :
  l <> [] -> folds self = Py.join "," (map Py.str_int l) -> _foldsAsList self = Ret l.
Proof.
  intros Hl Hf. unfold _foldsAsList. rewrite Hf. cbn [truthy].
  destruct (String.eqb (Py.join "," (map Py.str_int l)) "") eqn:He.
  { apply String.eqb_eq in He. now apply numerals_text_nonempty in He. }
  cbn [negb]. rewrite (strip_no_space _ (numerals_text_no_space l)).
  destruct l as [|z l]; [contradiction|]. cbn [map].
  rewrite (split_join "," (Py.str_int z) (map Py.str_int l)
             (numerals_text_fields (z :: l))).
  apply (mapM_int_str_int_Z (z :: l)).
Qed.

Lemma split_go_nonempty sep skip cur s : Py.split_go sep skip cur s <> [].
Proof.
  revert skip cur. induction s as [|c s IH]; intros skip cur; cbn [Py.split_go].
  - discriminate.
  - destruct skip; [|apply IH].
    destruct (String.prefix sep (String c s)); [discriminate | apply IH].
Qed.

Lemma mapM_length {A B} (f : A -> PyResult B) (l : list A) (r : list B) :
  mapM f l = Ret r -> length r = length l.
Proof.
  revert r. induction l as [|x l IH]; intros r; cbn [mapM].
  - intros [= <-]. reflexivity.
  - destruct (f x) as [y|e]; [|discriminate]. rewrite bind_Ret.
    destruct (mapM f l) as [ys|e]; [|discriminate]. rewrite bind_Ret.
    intros [= <-]. cbn [length]. now rewrite (IH ys eq_refl).
Qed.

Lemma foldsAsList_nonempty self fl : _foldsAsList self = Ret fl -> fl <> [].
Proof.
  unfold _foldsAsList. destruct (truthy (PStr (folds self))).
  - intros Hm%mapM_length Hnil. subst fl. cbn [length] in Hm.
    symmetry in Hm. apply length_zero_iff_nil in Hm.
    exact (split_go_nonempty _ _ _ _ Hm).
  - intros [= <-]. discriminate.
Qed.

(** X4. The folds a configuration requests are never an empty list,
    and they survive being written back: joining their [str] with
    commas gives a folds text that decodes to the same list. This holds
    for every integer, a negative fold index included: the decoding
    does not restrict folds to non-negative numbers. *)
Theorem folds_reencode (self : InferenceParameters) (requested : list Z) :
  _foldsAsList self = Ret requested ->
  requested <> []
  /\ _foldsAsList (set_folds self (Py.join "," (map Py.str_int requested)))
     = Ret requested.
Proof.
  intros Hf. pose proof (foldsAsList_nonempty _ _ Hf) as Hne.
  split; [exact Hne|]. now apply foldsAsList_numerals.
Qed.

Lemma folds_reencode_witness :
  _foldsAsList (with_model " 3, -1 ,+2" "models") = Ret [3; -1; 2]
  /\ _foldsAsList (set_folds (with_model " 3, -1 ,+2" "models") "3,-1,2")
     = Ret [3; -1; 2].
Proof.
  assert (Hf : _foldsAsList (with_model " 3, -1 ,+2" "models") = Ret [3; -1; 2])
    by (vm_compute; reflexivity).
  split; [exact Hf|].
  exact (proj2 (folds_reencode (with_model " 3, -1 ,+2" "models") [3; -1; 2] Hf)).
Defined.

Lemma lstrip_all_space s : Py.all_chars Py.isspace s = true -> Py.lstrip s = "".
Proof.
  induction s as [|a s IH]; [reflexivity|]. cbn [Py.all_chars Py.lstrip].
  intros [-> Hs]%andb_true_iff. exact (IH Hs).
Qed.

Lemma rstrip_snoc u c :
  Py.isspace c = false -> Py.rstrip (u +:+ String c "") = u +:+ String c "".
Proof.
  intros Hc. induction u as [|a u IH].
  - change ("" +:+ String c "") with (String c ""). cbn [Py.rstrip]. now rewrite Hc.
  - change (String a u +:+ String c "") with (String a (u +:+ String c "")).
    cbn [Py.rstrip]. rewrite IH. destruct u; reflexivity.
Qed.

Lemma lstrip_snoc s c :
  Py.isspace c = false -> exists t, Py.lstrip (s +:+ String c "") = t +:+ String c "".
Proof.
  intros Hc. induction s as [|a s IH].
  - exists "". change ("" +:+ String c "") with (String c "").
    cbn [Py.lstrip]. now rewrite Hc.
  - change (String a s +:+ String c "") with (String a (s +:+ String c "")).
    cbn [Py.lstrip]. destruct (Py.isspace a); [exact IH|]. now exists (String a s).
Qed.

Lemma split_go_trailing cur t :
  exists fields, Py.split_go "," 0 cur (t +:+ ",") = (fields ++ [""])%list.
Proof.
  revert cur. induction t as [|a t IH]; intros cur.
  - exists [cur]. reflexivity.
  - change (String a t +:+ ",") with (String a (t +:+ ",")). cbn [Py.split_go].
    destruct (String.prefix "," (String a (t +:+ ","))).
    + change (Nat.pred (String.length ",")) with 0%nat.
      destruct (IH "") as [fields ->]. now exists (cur :: fields).
    + apply IH.
Qed.

Lemma mapM_int_empty_field (l : list string) :
  In "" l -> mapM Py.int l = Raise ValueError.
Proof.
  induction l as [|x l IH]; [intros []|]. intros Hin. cbn [mapM].
  destruct (Py.int x) as [z|e] eqn:Hx.
  - rewrite bind_Ret. destruct Hin as [->|Hin]; [discriminate Hx|].
    now rewrite (IH Hin).
  - now rewrite (int_raises_ValueError _ _ Hx).
Qed.

(** X5. Decoding the folds text raises nothing but [ValueError], and
    it does raise it for a text of whitespace only, for a text that
    ends with a comma and for a text that starts with one. *)
Theorem foldsAsList_errors (self : InferenceParameters) :
  (forall e, _foldsAsList self = Raise e -> e = ValueError)
  /\ (folds self <> "" -> Py.all_chars Py.isspace (folds self) = true ->
      _foldsAsList self = Raise ValueError)
  /\ (forall t, folds self = t +:+ "," -> _foldsAsList self = Raise ValueError)
  /\ (forall t, folds self = String "," t -> _foldsAsList self = Raise ValueError).
Proof.
  split; [apply foldsAsList_raises_ValueError | split; [|split]].
  - intros Hne Hsp. unfold _foldsAsList. cbn [truthy].
    destruct (String.eqb (folds self) "") eqn:He;
      [apply String.eqb_eq in He; contradiction|].
    cbn [negb]. unfold Py.strip. rewrite (lstrip_all_space _ Hsp). reflexivity.
  - intros t Ht. unfold _foldsAsList. rewrite Ht. cbn [truthy].
    destruct (String.eqb (t +:+ ",") "") eqn:He.
    { apply String.eqb_eq in He. destruct t; discriminate He. }
    cbn [negb]. unfold Py.strip.
    destruct (lstrip_snoc t "," eq_refl) as [u ->].
    rewrite (rstrip_snoc u "," eq_refl). unfold Py.split.
    destruct (split_go_trailing "" u) as [fields ->].
    apply mapM_int_empty_field, in_or_app. right. now left.
  - intros t Ht. unfold _foldsAsList. rewrite Ht. cbn [truthy String.eqb negb].
    unfold Py.strip. change (Py.lstrip (String "," t)) with (String "," t).
    assert (Hr : exists r, Py.rstrip (String "," t) = String "," r).
    { cbn [Py.rstrip]. destruct (Py.rstrip t); eauto. }
    destruct Hr as [r ->]. apply mapM_int_empty_field.
    destruct r; now left.
Qed.

Lemma foldsAsList_errors_witness :
  folds (with_model "0,1," "models") = "0,1" +:+ ","
  /\ _foldsAsList (with_model "0,1," "models") = Raise ValueError.
Proof.
  split; [reflexivity|].
  exact (proj1 (proj2 (proj2 (foldsAsList_errors (with_model "0,1," "models"))))
           "0,1" eq_refl).
Defined.

(** ** The derived folders and the parts of the configuration name *)

Lemma Path_of_str_name x : name_ok x = true -> Path_of_str x = mkPath "" [x].
Proof.
  intros Hx. destruct (name_ok_head x Hx) as (a & r & -> & Ha).
  unfold Path_of_str. rewrite (root_of_other _ _ Ha). f_equal.
  assert (Hs : Py.split "/" (String a r) = [String a r]).
  { apply (split_join "/" (String a r) []). constructor; [|constructor].
    unfold name_ok in Hx. now apply andb_true_iff in Hx as [_ ?]. }
  rewrite Hs. cbn [List.filter]. unfold name_ok in Hx.
  apply andb_true_iff in Hx as [-> _]. reflexivity.
Qed.

Lemma joinpath_name p x :
  name_ok x = true ->
  joinpath p x = mkPath (path_root p) (path_names p ++ [x]).
Proof. intros Hx. unfold joinpath. now rewrite (Path_of_str_name x Hx). Qed.

Lemma parent_joinpath p x : name_ok x = true -> parent (joinpath p x) = p.
Proof.
  intros Hx. rewrite (joinpath_name p x Hx). unfold parent. cbn [path_root path_names].
  rewrite removelast_last. now destruct p.
Qed.

Lemma name_joinpath p x : name_ok x = true -> name (joinpath p x) = x.
Proof.
  intros Hx. rewrite (joinpath_name p x Hx). unfold name. cbn [path_names].
  apply last_last.
Qed.

(** X7. When the dataset file found is
    model folder / dataset / configuration / dataset.json, the
    configuration folder, the dataset folder, the dataset name and the
    model folder are the four levels above it, and the name parts are
    those of the configuration folder's name. *)
Theorem derived_folders
    (fs : FileSystem) (self : InferenceParameters) (m : Path) (ds conf : string) :
  name_ok ds = true -> name_ok conf = true ->
  _datasetPath fs self = Some (joinpath (joinpath (joinpath m ds) conf) "dataset.json") ->
  _configurationFolder fs self = Ret (joinpath (joinpath m ds) conf)
  /\ _datasetFolder fs self = Ret (joinpath m ds)
  /\ _datasetName fs self = Ret ds
  /\ modelFolder fs self = Ret m
  /\ _configurationNameParts fs self = Ret (Py.split "__" conf).
Proof.
  intros Hds Hconf Hd.
  assert (Hc : _configurationFolder fs self = Ret (joinpath (joinpath m ds) conf)).
  { rewrite (configurationFolder_found _ _ _ Hd). f_equal.
    now apply parent_joinpath. }
  assert (Hf : _datasetFolder fs self = Ret (joinpath m ds)).
  { unfold _datasetFolder. rewrite Hc, fmap_Ret. f_equal. now apply parent_joinpath. }
  split; [exact Hc | split; [exact Hf | split; [|split]]].
  - unfold _datasetName. rewrite Hf, fmap_Ret. f_equal. now apply name_joinpath.
  - unfold modelFolder. rewrite Hf, fmap_Ret. f_equal. now apply parent_joinpath.
  - unfold _configurationNameParts. rewrite Hc, fmap_Ret. f_equal. f_equal.
    now apply name_joinpath.
Qed.

Lemma derived_folders_witness :
  let self := with_model "0" "models" in
  _datasetPath sample_fs self
  = Some (joinpath (joinpath (joinpath (Path_of_str "models") "Dataset001_Bones")
                      "nnUNetTrainer__nnUNetPlans__3d_fullres") "dataset.json")
  /\ _datasetName sample_fs self = Ret "Dataset001_Bones"
  /\ modelFolder sample_fs self = Ret (Path_of_str "models").
Proof.
  intros self.
  assert (Hd : _datasetPath sample_fs self
               = Some (joinpath (joinpath (joinpath (Path_of_str "models")
                                             "Dataset001_Bones")
                                   "nnUNetTrainer__nnUNetPlans__3d_fullres")
                         "dataset.json")) by (vm_compute; reflexivity).
  pose proof (derived_folders sample_fs self (Path_of_str "models") "Dataset001_Bones"
                "nnUNetTrainer__nnUNetPlans__3d_fullres" eq_refl eq_refl Hd)
    as (_ & _ & Hname & Hmodel & _).
  split; [exact Hd | split; [exact Hname | exact Hmodel]].
Defined.

Lemma split2_go_part cur f rest :
  part_ok f = true ->
  Py.split_go "__" 0 cur (f +:+ rest) = Py.split_go "__" 0 (cur +:+ f) rest.
Proof.
  revert cur. induction f as [|a f IH]; intros cur Hf.
  - now rewrite append_nil_r.
  - change (String a f +:+ rest) with (String a (f +:+ rest)).
    cbn [part_ok] in Hf. cbn [Py.split_go String.prefix].
    destruct (Ascii.eqb a "_") eqn:Ha.
    + apply Ascii.eqb_eq in Ha. subst a.
      destruct f as [|b f']; [discriminate|].
      apply andb_true_iff in Hf as [Hb Hf]. apply negb_true_iff, Ascii.eqb_neq in Hb.
      destruct (ascii_dec "_" "_") as [_|Hne]; [|contradiction].
      change (String b f' +:+ rest) with (String b (f' +:+ rest)).
      cbn [String.prefix]. destruct (ascii_dec "_" b) as [<-|_]; [contradiction|].
      change (String b (f' +:+ rest)) with (String b f' +:+ rest).
      rewrite (IH _ Hf), append_assoc. reflexivity.
    + apply Ascii.eqb_neq in Ha.
      destruct (ascii_dec "_" a) as [<-|_]; [contradiction|].
      rewrite (IH _ Hf), append_assoc. reflexivity.
Qed.

Lemma split2_go_join cur x xs :
  Forall (fun f => part_ok f = true) (x :: xs) ->
  Py.split_go "__" 0 cur (Py.join "__" (x :: xs)) = (cur +:+ x) :: xs.
Proof.
  revert cur x. induction xs as [|y ys IH]; intros cur x Hall.
  - cbn [Py.join]. rewrite <- (append_nil_r x) at 1.
    rewrite split2_go_part by (now inversion Hall). reflexivity.
  - inversion Hall as [|? ? Hx Hrest]; subst.
    change (Py.join "__" (x :: y :: ys)) with (x +:+ "__" +:+ Py.join "__" (y :: ys)).
    rewrite (split2_go_part _ _ _ Hx).
    set (J := Py.join "__" (y :: ys)) in *.
    change ("__" +:+ J) with (String "_" (String "_" J)).
    assert (Hp : String.prefix "__" (String "_" (String "_" J)) = true).
    { cbn [String.prefix]. destruct (ascii_dec "_" "_"); [|contradiction].
      now destruct J. }
    cbn [Py.split_go]. rewrite Hp.
    change (Nat.pred (String.length "__")) with 1%nat. cbn [Py.split_go].
    f_equal. apply (IH "" y Hrest).
Qed.

(** X6. A configuration folder named by joining parts with "__"
    splits back into these parts, provided no part has an underscore
    at its end or two underscores in a row (single underscores inside
    a part, as in "3d_fullres", do no harm). *)
Theorem configurationNameParts_of_join
    (fs : FileSystem) (self : InferenceParameters) (d : Path) (parts : list string) :
  _datasetPath fs self = Some d ->
  parts <> [] ->
  Forall (fun f => part_ok f = true) parts ->
  name (parent d) = Py.join "__" parts ->
  _configurationNameParts fs self = Ret parts.
Proof.
  intros Hd Hne Hall Hname.
  rewrite (configurationNameParts_found _ _ _ Hd), Hname. f_equal.
  destruct parts as [|x xs]; [contradiction|].
  unfold Py.split. now rewrite split2_go_join.
Qed.

Lemma configurationNameParts_of_join_witness :
  let self := with_model "0" "models" in
  let parts := ["nnUNetTrainer"; "nnUNetPlans"; "3d_fullres"] in
  _datasetPath sample_fs self = Some (joinpath conf_dir "dataset.json")
  /\ Forall (fun f => part_ok f = true) parts
  /\ _configurationNameParts sample_fs self = Ret parts.
Proof.
  intros self parts.
  assert (Hd : _datasetPath sample_fs self = Some (joinpath conf_dir "dataset.json"))
    by (vm_compute; reflexivity).
  assert (Hall : Forall (fun f => part_ok f = true) parts)
    by (repeat constructor).
  split; [exact Hd | split; [exact Hall|]].
  refine (configurationNameParts_of_join sample_fs self _ parts Hd _ Hall _).
  - discriminate.
  - vm_compute. reflexivity.
Defined.

(** ** Fold folders and checkpoint files *)

Lemma numeral_no_slash (z : Z) :
  Py.all_chars (fun c => negb (Ascii.eqb c "/")) (Py.str_int z) = true.
Proof.
  apply (all_chars_weaken numeral_char); [|apply str_int_numeral].
  intros c. each_char c; intros Hc; vm_compute in Hc; try discriminate Hc; reflexivity.
Qed.

Lemma fold_name_ok (i : Z) : name_ok ("fold_" +:+ Py.str_int i) = true.
Proof.
  unfold name_ok. apply andb_true_iff. split; [reflexivity|].
  rewrite all_chars_append, numeral_no_slash. reflexivity.
Qed.

(** X8. The fold paths follow the requested folds one for one, in
    order, repeated folds included; the path of fold [i] is named
    fold_<i> and lies directly in the configuration folder. *)
Theorem getFoldPaths_spec
    (fs : FileSystem) (self : InferenceParameters) (d : Path) (requested : list Z) :
  _datasetPath fs self = Some d ->
  _foldsAsList self = Ret requested ->
  exists paths,
    _getFoldPaths fs self = Ret paths
    /\ map fst paths = requested
    /\ (forall i p, In (i, p) paths ->
          name p = "fold_" +:+ Py.str_int i /\ parent p = parent d).
Proof.
  intros Hd Hf. eexists. split; [exact (getFoldPaths_found _ _ _ _ Hd Hf) | split].
  - rewrite map_map. cbn [fst]. apply map_id.
  - intros i p [j [[= <- <-] _]]%in_map_iff. unfold fold_folder. split.
    + apply name_joinpath, fold_name_ok.
    + apply parent_joinpath, fold_name_ok.
Qed.

Lemma getFoldPaths_spec_witness :
  let self := with_model "1,0,1" "models" in
  _datasetPath sample_fs self = Some (joinpath conf_dir "dataset.json")
  /\ _foldsAsList self = Ret [1; 0; 1]
  /\ exists paths, _getFoldPaths sample_fs self = Ret paths /\ map fst paths = [1; 0; 1].
Proof.
  intros self.
  assert (Hd : _datasetPath sample_fs self = Some (joinpath conf_dir "dataset.json"))
    by (vm_compute; reflexivity).
  assert (Hf : _foldsAsList self = Ret [1; 0; 1]) by (vm_compute; reflexivity).
  split; [exact Hd | split; [exact Hf|]].
  destruct (getFoldPaths_spec sample_fs self _ _ Hd Hf) as (paths & Hp & Hfst & _).
  exists paths. split; [exact Hp | exact Hfst].
Defined.

Lemma filter_const {A} (b : bool) (l : list A) :
  List.filter (fun _ => b) l = if b then l else [].
Proof.
  induction l as [|x l IH]; [now destruct b|]. cbn [List.filter]. rewrite IH.
  now destruct b.
Qed.

(** X9. An absolute checkpoint name takes the fold folder out of the
    weights check: the file looked for is the same for every fold, the
    absolute path itself, so the check reports no fold when that file
    exists and every requested fold when it does not. *)
Theorem absolute_checkpoint_name
    (fs : FileSystem) (self : InferenceParameters) (d : Path) (requested : list Z) :
  _datasetPath fs self = Some d ->
  _foldsAsList self = Ret requested ->
  root_of (checkPointName self) <> "" ->
  (forall p, joinpath p (_getCheckpointName self) = Path_of_str (checkPointName self))
  /\ _getFoldsWithInvalidWeights fs self
     = Ret (if fs_exists fs (Path_of_str (checkPointName self)) then [] else requested).
Proof.
  intros Hd Hf Hroot.
  assert (Hname : _getCheckpointName self = checkPointName self).
  { unfold _getCheckpointName. cbn [truthy].
    destruct (checkPointName self); [now destruct Hroot | reflexivity]. }
  assert (Hjoin : forall p,
             joinpath p (_getCheckpointName self) = Path_of_str (checkPointName self)).
  { intros p. rewrite Hname. unfold joinpath.
    change (path_root (Path_of_str (checkPointName self)))
      with (root_of (checkPointName self)).
    destruct (String.eqb (root_of (checkPointName self)) "") eqn:He; [|reflexivity].
    now apply String.eqb_eq in He. }
  split; [exact Hjoin|].
  rewrite (getFoldsWithInvalidWeights_found _ _ _ _ Hd Hf). f_equal.
  unfold weights_missing. rewrite <- getCheckpointName_spec.
  rewrite (List.filter_ext _ (fun _ => negb (fs_exists fs (Path_of_str (checkPointName self)))))
    by (intros i; now rewrite Hjoin).
  rewrite filter_const. now destruct (fs_exists fs _).
Qed.

Lemma absolute_checkpoint_name_witness :
  let self := mkParameter "0,1" "cuda" float_half true 1 1 "/models" (Path_of_str "models") in
  _datasetPath sample_fs self = Some (joinpath conf_dir "dataset.json")
  /\ _foldsAsList self = Ret [0; 1]
  /\ root_of (checkPointName self) <> ""
  /\ _getFoldsWithInvalidWeights sample_fs self = Ret [0; 1].
Proof.
  intros self.
  assert (Hd : _datasetPath sample_fs self = Some (joinpath conf_dir "dataset.json"))
    by (vm_compute; reflexivity).
  assert (Hf : _foldsAsList self = Ret [0; 1]) by (vm_compute; reflexivity).
  assert (Hr : root_of (checkPointName self) <> "") by discriminate.
  split; [exact Hd | split; [exact Hf | split; [exact Hr|]]].
  exact (proj2 (absolute_checkpoint_name sample_fs self _ _ Hd Hf Hr)).
Defined.

(** ** Validity and the list of folds *)

Lemma isValid_for_folds fs self (l : list Z) :
  l <> [] ->
  (isValid fs (set_folds self (Py.join "," (map Py.str_int l))) = Ret (true, "")
   <-> exists d,
       head (fs_rglob fs (modelPath self) "dataset.json") = Some d
       /\ (forall i, In i l ->
             fs_exists fs (fold_folder (parent d) i) = true
             /\ fs_exists fs (joinpath (fold_folder (parent d) i) (checkpoint_name self))
                = true)
       /\ length (Py.split "__" (name (parent d))) = 3%nat).
Proof.
  intros Hl.
  assert (Hf : _foldsAsList (set_folds self (Py.join "," (map Py.str_int l))) = Ret l)
    by now apply foldsAsList_numerals.
  rewrite isValid_true_iff. unfold all_checks_pass. split.
  - intros (d & requested & Hd & Hreq & Hall & Hn).
    rewrite Hf in Hreq. apply Ret_inj in Hreq. subst requested. now exists d.
  - intros (d & Hd & Hall & Hn). exists d, l. auto.
Qed.

(** X10. A configuration that requests several folds is valid exactly
    when it is valid for each part of the list: the folds of two lists
    together pass the checks if and only if each list passes them. *)
Theorem isValid_folds_app (fs : FileSystem) (self : InferenceParameters) (l1 l2 : list Z) :
  l1 <> [] -> l2 <> [] ->
  (isValid fs (set_folds self (Py.join "," (map Py.str_int (l1 ++ l2)))) = Ret (true, "")
   <-> isValid fs (set_folds self (Py.join "," (map Py.str_int l1))) = Ret (true, "")
       /\ isValid fs (set_folds self (Py.join "," (map Py.str_int l2))) = Ret (true, "")).
Proof.
  intros H1 H2.
  assert (H12 : (l1 ++ l2)%list <> []) by (destruct l1; [contradiction | discriminate]).
  rewrite (isValid_for_folds fs self _ H12), (isValid_for_folds fs self _ H1),
    (isValid_for_folds fs self _ H2).
  split.
  - intros (d & Hd & Hall & Hn). split; exists d; (split; [exact Hd | split; [|exact Hn]]);
      intros i Hi; apply Hall, in_or_app; auto.
  - intros [(d & Hd & Hall1 & Hn) (d' & Hd' & Hall2 & _)].
    rewrite Hd in Hd'. injection Hd' as <-.
    exists d. split; [exact Hd | split; [|exact Hn]].
    intros i [Hi|Hi]%in_app_or; auto.
Qed.

Lemma isValid_folds_app_witness :
  let self := with_model "" "models" in
  isValid sample_fs (set_folds self (Py.join "," (map Py.str_int ([0] ++ [1]))))
  = Ret (true, "")
  <-> isValid sample_fs (set_folds self (Py.join "," (map Py.str_int [0]))) = Ret (true, "")
      /\ isValid sample_fs (set_folds self (Py.join "," (map Py.str_int [1])))
         = Ret (true, "").
Proof.
  intros self. apply (isValid_folds_app sample_fs self [0] [1]); discriminate.
Defined.

(** ** What reading the labels raises *)

(** X11. With the dataset file found, reading the labels passes on
    what opening the file raises, raises [JSONDecodeError] for a text
    that is not JSON, and raises [AttributeError] when the JSON value
    is not an object or when its "labels" member is not an object; an
    empty "labels" object gives the empty list, not [None]. *)
Theorem readSegmentIds_errors `{PyRepr}
    (fs : FileSystem) (self : InferenceParameters) (d : Path) :
  _datasetPath fs self = Some d ->
  (forall e, fs_read fs d = Raise e ->
     readSegmentIdsAndLabelsFromDatasetFile fs self = Raise e)
  /\ (fs_read fs d = Ret EmptyText \/ fs_read fs d = Ret NotJson ->
      readSegmentIdsAndLabelsFromDatasetFile fs self = Raise JSONDecodeError)
  /\ (forall v, fs_read fs d = Ret (JsonDoc v) -> (forall ms, v <> JObj ms) ->
      readSegmentIdsAndLabelsFromDatasetFile fs self = Raise AttributeError)
  /\ (forall ms lv,
        fs_read fs d = Ret (JsonDoc (JObj ms)) ->
        last_value ms "labels" = Some lv -> (forall l, lv <> JObj l) ->
        readSegmentIdsAndLabelsFromDatasetFile fs self = Raise AttributeError)
  /\ (forall ms,
        fs_read fs d = Ret (JsonDoc (JObj ms)) ->
        last_value ms "labels" = Some (JObj []) ->
        readSegmentIdsAndLabelsFromDatasetFile fs self = Ret (Some [])).
Proof.
  intros Hd.
  assert (Hstart : readSegmentIdsAndLabelsFromDatasetFile fs self
                   = (text ← fs_read fs d;
                      dataset_dict ← json_loads text;
                      labels ← get dataset_dict "labels";
                      kvs ← items labels;
                      Ret (Some (map (fun kv => ("Segment_" +:+ str (snd kv), fst kv))
                                   kvs)))).
  { unfold readSegmentIdsAndLabelsFromDatasetFile.
    now rewrite (isDatasetPathValid_Some _ _ _ Hd), Hd. }
  split; [|split; [|split; [|split]]].
  - intros e He. now rewrite Hstart, He.
  - intros [He|He]; now rewrite Hstart, He.
  - intros v Hv Hno. rewrite Hstart, Hv, bind_Ret, json_loads_doc, bind_Ret.
    destruct v; try reflexivity. now destruct (Hno members).
  - intros ms lv Hread Hl Hno.
    rewrite (readSegmentIds_found fs self d ms Hd Hread), Hl.
    destruct lv; try reflexivity. now destruct (Hno members).
  - intros ms Hread Hl.
    now rewrite (readSegmentIds_labels fs self d ms [] Hd Hread Hl).
Qed.

Lemma readSegmentIds_errors_witness :
  let self := with_model "" "models" in
  let fs := listed_fs [(joinpath conf_dir "dataset.json", Some NotJson)] in
  _datasetPath fs self = Some (joinpath conf_dir "dataset.json")
  /\ fs_read fs (joinpath conf_dir "dataset.json") = Ret NotJson
  /\ readSegmentIdsAndLabelsFromDatasetFile (H:=sample_repr) fs self
     = Raise JSONDecodeError.
Proof.
  intros self fs.
  assert (Hd : _datasetPath fs self = Some (joinpath conf_dir "dataset.json"))
    by (vm_compute; reflexivity).
  assert (Hr : fs_read fs (joinpath conf_dir "dataset.json") = Ret NotJson)
    by (vm_compute; reflexivity).
  split; [exact Hd | split; [exact Hr|]].
  exact (proj1 (proj2 (readSegmentIds_errors (H:=sample_repr) fs self _ Hd))
           (or_intror Hr)).
Defined.

(** ** The path encoder on arbitrary values *)

Lemma mapM_map_Ret {A B} (f : B -> PyResult A) (g : A -> B) (l : list A) :
  Forall (fun x => f (g x) = Ret x) l -> mapM f (map g l) = Ret l.
Proof.
  induction 1 as [|x l Hx _ IH]; [reflexivity|].
  cbn [map mapM]. now rewrite Hx, bind_Ret, IH.
Qed.

Lemma encode_tagged (v : PyValue) :
  encode (fun o => o' ← _PathEncoder.default o; encode (fun _ => Raise TypeError) o') v
  = Ret (tagged v).
Proof.
  induction v using PyValue_nested_ind; try reflexivity.
  - cbn [encode tagged]. rewrite (mapM_Ret _ tagged).
    + reflexivity.
    + intros x Hx. exact (proj1 (List.Forall_forall _ _) H x Hx).
  - cbn [encode tagged]. rewrite (mapM_Ret _ (on_snd tagged)).
    + reflexivity.
    + intros kv Hkv. rewrite (proj1 (List.Forall_forall _ _) H kv Hkv). reflexivity.
Qed.

Lemma dict_set_fresh {A} (acc : list (string * A)) k v :
  existsb (String.eqb k) (map fst acc) = false -> dict_set acc k v = (acc ++ [(k, v)])%list.
Proof.
  induction acc as [|[k0 v0] acc IH]; cbn [map fst existsb dict_set app]; [reflexivity|].
  intros [Hk Hacc]%orb_false_iff. rewrite String.eqb_sym, Hk. now rewrite IH.
Qed.

Lemma existsb_app_one (k k0 : string) (ks : list string) :
  existsb (String.eqb k) (ks ++ [k0]) = existsb (String.eqb k) ks || String.eqb k k0.
Proof. rewrite existsb_app. cbn [existsb]. now rewrite orb_false_r. Qed.

Lemma dict_fold_fresh {A} (l acc : list (string * A)) :
  nodup_keys (map fst l) = true ->
  forallb (fun k => negb (existsb (String.eqb k) (map fst acc))) (map fst l) = true ->
  fold_left (fun d kv => dict_set d (fst kv) (snd kv)) l acc = (acc ++ l)%list.
Proof.
  revert acc. induction l as [|[k v] l IH]; intros acc Hnd Hfresh.
  - now rewrite app_nil_r.
  - cbn [map fst nodup_keys forallb] in Hnd, Hfresh.
    apply andb_true_iff in Hnd as [Hk Hnd]. apply andb_true_iff in Hfresh as [Hka Hfresh].
    apply negb_true_iff in Hk, Hka.
    cbn [fold_left fst snd]. rewrite (dict_set_fresh acc k v Hka).
    rewrite IH, <- app_assoc; [reflexivity | exact Hnd |].
    apply forallb_forall. intros k' Hk'.
    rewrite map_app. cbn [map fst]. rewrite existsb_app_one.
    apply negb_true_iff, orb_false_iff. split.
    + apply negb_true_iff. exact (proj1 (forallb_forall _ _) Hfresh k' Hk').
    + destruct (String.eqb k' k) eqn:He; [|reflexivity].
      apply String.eqb_eq in He. subst k'.
      assert (Hex : existsb (String.eqb k) (map fst l) = true).
      { apply existsb_exists. exists k. split; [exact Hk' | apply String.eqb_refl]. }
      congruence.
Qed.

Lemma dict_of_pairs_nodup {A} (l : list (string * A)) :
  nodup_keys (map fst l) = true -> dict_of_pairs l = l.
Proof.
  intros Hnd. unfold dict_of_pairs. rewrite dict_fold_fresh; [reflexivity | exact Hnd|].
  apply forallb_forall. reflexivity.
Qed.

Lemma dict_get_absent {A} (d : list (string * A)) k :
  existsb (String.eqb k) (map fst d) = false -> dict_get d k = None.
Proof.
  induction d as [|[k0 v0] d IH]; cbn [map fst existsb dict_get]; [reflexivity|].
  intros [Hk Hd]%orb_false_iff. rewrite String.eqb_sym, Hk. exact (IH Hd).
Qed.

Lemma decode_tagged (v : PyValue) :
  taggable v = true -> decode _PathEncoder.decodePath (tagged v) = Ret v.
Proof.
  induction v using PyValue_nested_ind; try reflexivity.
  - intros Hl. cbn [taggable] in Hl. cbn [tagged decode].
    rewrite mapM_map_Ret; [reflexivity|].
    apply List.Forall_forall. intros x Hx.
    apply (proj1 (List.Forall_forall _ _) H x Hx).
    exact (proj1 (forallb_forall _ _) Hl x Hx).
  - intros Hd. cbn [taggable] in Hd.
    apply andb_true_iff in Hd as [[Hnd Hno]%andb_true_iff Hall].
    apply negb_true_iff in Hno. cbn [tagged decode].
    rewrite (mapM_map_Ret _ (on_snd tagged)).
    + rewrite bind_Ret, (dict_of_pairs_nodup d Hnd). unfold _PathEncoder.decodePath.
      now rewrite (dict_get_absent d "_path" Hno).
    + apply List.Forall_forall. intros [k x] Hx. cbn [on_snd fst snd].
      pose proof (proj1 (List.Forall_forall _ _) H (k, x) Hx
                    (proj1 (forallb_forall _ _) Hall (k, x) Hx)) as Hdec.
      cbn [snd] in Hdec. now rewrite Hdec.
  - intros Hp. cbn [taggable] in Hp.
    change (decode _PathEncoder.decodePath (tagged (PPath p)))
      with (Ret (A:=PyValue) (PPath (Path_of_str (str_of_Path p)))).
    now rewrite (Path_of_str_of_Path p Hp).
Qed.

(** X12. [json.dumps] with the path encoder never raises on a value
    made of JSON values and paths, and [json.loads] with the path hook
    gives the value back when its dicts have distinct keys, none of
    them "_path". That condition is needed: a dict that holds only a
    string under "_path" is written as the same text as a path, and is
    read back as that path. *)
Theorem PathEncoder_roundtrip (v : PyValue) :
  json_dumps _PathEncoder.default v = Ret (JsonDoc (tagged v))
  /\ (taggable v = true ->
      json_loads_hook _PathEncoder.decodePath (JsonDoc (tagged v)) = Ret v)
  /\ (forall p : Path,
        json_dumps _PathEncoder.default (PDict [("_path", PStr (str_of_Path p))])
        = json_dumps _PathEncoder.default (PPath p)
        /\ json_loads_hook _PathEncoder.decodePath
             (JsonDoc (tagged (PDict [("_path", PStr (str_of_Path p))])))
           = Ret (PPath (Path_of_str (str_of_Path p)))).
Proof.
  split; [|split].
  - unfold json_dumps. now rewrite encode_tagged.
  - apply decode_tagged.
  - intros p. split; reflexivity.
Qed.

Lemma PathEncoder_roundtrip_witness :
  let v := PList [PDict [("weights", PPath (Path_of_str "/models/w.pth")); ("n", PInt 3)];
                  PPath Path_; PNone] in
  taggable v = true
  /\ json_loads_hook _PathEncoder.decodePath (JsonDoc (tagged v)) = Ret v.
Proof.
  intros v. assert (Hv : taggable v = true) by reflexivity.
  split; [exact Hv|]. exact (proj1 (proj2 (PathEncoder_roundtrip v)) Hv).
Defined.

(** ** Settings: other keys, and partial data *)

Lemma stored_text_settings_key (settings : QtSettings) (key : string) :
  stored_text settings key
  = match passed settings with Some s => s | None => application settings end
      !! settings_key key.
Proof. reflexivity. Qed.

(** X13. [toSettings] never raises and writes one entry only: what is
    stored under any other key, and so what [fromSettings] restores
    from it, is unchanged; with a settings object passed in, the
    application's own settings are not touched. *)
Theorem toSettings_frame `{ParameterPack}
    (self : InferenceParameters) (settings : QtSettings) (key : string) :
  exists settings',
    toSettings self settings key = Ret settings'
    /\ (forall k', settings_key k' <> settings_key key ->
          stored_text settings' k' = stored_text settings k'
          /\ fromSettings settings' k' = fromSettings settings k')
    /\ match passed settings with
       | Some _ => application settings' = application settings
                   /\ passed settings' <> None
       | None => passed settings' = None
       end.
Proof.
  destruct (toSettings_stores self settings key) as (settings' & Hto & _).
  exists settings'. split; [exact Hto|].
  unfold toSettings in Hto. rewrite dumps_asDict, bind_Ret in Hto.
  apply Ret_inj in Hto. subst settings'.
  assert (Hkey : (if truthy (PStr key) then key else _defaultSettingsKey)
                 = settings_key key).
  { unfold settings_key. cbn [truthy]. now destruct (String.eqb key ""). }
  rewrite Hkey. split.
  - intros k' Hk'.
    assert (Hst : stored_text
                    match passed settings with
                    | Some s =>
                        {| passed := Some (<[settings_key key := JsonDoc (settings_doc self)]> s);
                           application := application settings |}
                    | None =>
                        {| passed := None;
                           application :=
                             <[settings_key key := JsonDoc (settings_doc self)]>
                               (application settings) |}
                    end k'
                  = stored_text settings k').
    { rewrite !stored_text_settings_key.
      destruct (passed settings); cbn [passed application];
        now rewrite lookup_insert_ne by congruence. }
    split; [exact Hst|]. now rewrite !fromSettings_stored, Hst.
  - destruct (passed settings); cbn [passed application]; [split|]; congruence.
Qed.

Lemma toSettings_frame_witness :
  exists settings',
    toSettings (with_model "0" "models") (settings_holding NotJson) "other" = Ret settings'
    /\ stored_text settings' "" = Some NotJson.
Proof.
  destruct (toSettings_frame (H:=checkedPack TypeError) (with_model "0" "models")
              (settings_holding NotJson) "other")
    as (settings' & Hto & Hother & _).
  exists settings'. split; [exact Hto|].
  assert (Hne : settings_key "" <> settings_key "other") by discriminate.
  rewrite (proj1 (Hother "" Hne)). vm_compute. reflexivity.
Defined.

Section PartialData.
Context `{ParameterPack}.

Lemma restored_from_nil i self : restored_from i self [] = i.
Proof. now destruct i. Qed.

Ltac field_assigned IH Hstep E i :=
  rewrite (Hstep i _ _ _ _ E), IH; f_equal;
  unfold restored_from, has_key; cbn [existsb];
  rewrite ?String.eqb_refl;
  cbn [orb folds device stepSize disableTta nProcessPreprocessing
       nProcessSegmentationExport checkPointName modelPath];
  f_equal;
  repeat match goal with
         | |- context [String.eqb ?a ?b] =>
             let r := eval vm_compute in (String.eqb a b) in
             change (String.eqb a b) with r
         end;
  cbn [orb];
  try reflexivity;
  match goal with
  | |- (if ?b then _ else _) = _ => now destruct b
  end.

Lemma restore_own_subset self i kvs :
  pack_accepts self ->
  (forall kv, In kv kvs -> In kv (asDict self)) ->
  restore i kvs = Ret (restored_from i self (map fst kvs)).
Proof.
  intros Hacc. revert i.
  assert (Hstep : forall j k v j' r,
             setValue j k v = Ret j' -> restore j ((k, v) :: r) = restore j' r).
  { intros j k v j' r Hs. cbn [restore]. now rewrite Hs. }
  induction kvs as [|[k x] kvs IH]; intros i Hsub.
  - cbn [map restore]. now rewrite restored_from_nil.
  - assert (Hin : In (k, x) (asDict self)) by (apply Hsub; now left).
    assert (Hrest : forall kv, In kv kvs -> In kv (asDict self))
      by (intros kv Hkv; apply Hsub; now right).
    specialize (fun j => IH j Hrest). cbn [map fst].
    unfold asDict in Hin. cbn [In] in Hin.
    destruct Hin as [E|[E|[E|[E|[E|[E|[E|[E|[]]]]]]]]]; injection E as <- <-.
    + field_assigned IH Hstep (proj1 (Hacc i)) i.
    + field_assigned IH Hstep (proj1 (proj2 (Hacc i))) i.
    + field_assigned IH Hstep (proj1 (proj2 (proj2 (Hacc i)))) i.
    + field_assigned IH Hstep (proj1 (proj2 (proj2 (proj2 (Hacc i))))) i.
    + field_assigned IH Hstep (proj1 (proj2 (proj2 (proj2 (proj2 (Hacc i)))))) i.
    + field_assigned IH Hstep
        (proj1 (proj2 (proj2 (proj2 (proj2 (proj2 (Hacc i))))))) i.
    + field_assigned IH Hstep
        (proj1 (proj2 (proj2 (proj2 (proj2 (proj2 (proj2 (Hacc i)))))))) i.
    + field_assigned IH Hstep
        (proj2 (proj2 (proj2 (proj2 (proj2 (proj2 (proj2 (Hacc i)))))))) i.
Qed.

End PartialData.

(** X14. Partial data: when the stored object holds some of the fields
    of a configuration (in any order, repeated or not), [fromSettings]
    returns the defaults with exactly those fields taken from it. *)
Theorem fromSettings_partial `{ParameterPack}
    (self : InferenceParameters) (settings : QtSettings) (key : string)
    (v : JValue) (kvs : list (string * PyValue)) :
  pack_accepts self ->
  stored_text settings key = Some (JsonDoc v) ->
  decode _PathEncoder.decodePath v = Ret (PDict kvs) ->
  (forall kv, In kv kvs -> In kv (asDict self)) ->
  fromSettings settings key = Ret (restored_from defaults self (map fst kvs)).
Proof.
  intros Hacc Hs Hdec Hsub. rewrite fromSettings_stored, Hs.
  cbn [default from_option id text_truthy json_loads_hook].
  rewrite Hdec, bind_Ret. cbn [items]. rewrite bind_Ret.
  now apply restore_own_subset.
Qed.

Lemma fromSettings_partial_witness :
  let self := mkParameter "0,1" "mps" float_one false 4 2 "best.pth"
                (Path_of_str "/data/models") in
  let v := JObj [ ("checkPointName", JStr "best.pth");
                  ("modelPath", JObj [("_path", JStr "/data/models")]);
                  ("folds", JStr "0,1") ] in
  stored_text (settings_holding (JsonDoc v)) "" = Some (JsonDoc v)
  /\ fromSettings (H:=checkedPack ValueError) (settings_holding (JsonDoc v)) ""
     = Ret (mkParameter "0,1" "cuda" float_half true 1 1 "best.pth"
              (Path_of_str "/data/models")).
Proof.
  intros self v.
  assert (Hs : stored_text (settings_holding (JsonDoc v)) "" = Some (JsonDoc v))
    by (vm_compute; reflexivity).
  assert (Hacc : pack_accepts (H:=checkedPack ValueError) self)
    by (apply checkedPack_accepts; reflexivity).
  split; [exact Hs|].
  refine (fromSettings_partial (H:=checkedPack ValueError) self _ "" v
            [ ("checkPointName", PStr "best.pth");
              ("modelPath", PPath (Path_of_str "/data/models"));
              ("folds", PStr "0,1") ] Hacc Hs eq_refl _).
  intros kv [<-|[<-|[<-|[]]]]; cbn; auto 10.
Defined.

(** ** Paths that come out of the code are normal *)

Lemma root_of_cases s : root_of s = "" \/ root_of s = "/" \/ root_of s = "//".
Proof.
  destruct s as [|a s]; [now left|].
  destruct (Ascii.eqb a "/") eqn:Ha; [|left; now apply root_of_other].
  apply Ascii.eqb_eq in Ha. subst a.
  destruct s as [|b s]; [right; now left|].
  destruct (Ascii.eqb b "/") eqn:Hb; [|right; left; now apply root_of_slash].
  apply Ascii.eqb_eq in Hb. subst b.
  destruct s as [|c s]; [right; now right|].
  destruct (Ascii.eqb c "/") eqn:Hc; [|right; right; now apply root_of_slash2].
  apply Ascii.eqb_eq in Hc. subst c. right. now left.
Qed.

Lemma split_go_fields c cur s :
  Py.all_chars (fun a => negb (Ascii.eqb a c)) cur = true ->
  Forall (fun f => Py.all_chars (fun a => negb (Ascii.eqb a c)) f = true)
         (Py.split_go (String c "") 0 cur s).
Proof.
  revert cur. induction s as [|a s IH]; intros cur Hcur; cbn [Py.split_go].
  - now constructor.
  - cbn [String.prefix]. destruct (ascii_dec c a) as [<- | Hne].
    + assert (Hp : String.prefix "" s = true) by now destruct s.
      rewrite Hp. constructor; [exact Hcur | now apply IH].
    + apply IH. rewrite all_chars_append, Hcur. cbn [Py.all_chars].
      apply Ascii.eqb_neq in Hne. rewrite Ascii.eqb_sym, Hne. reflexivity.
Qed.

Lemma forallb_filter_names l :
  Forall (fun f => Py.all_chars (fun a => negb (Ascii.eqb a "/")) f = true) l ->
  forallb name_ok (List.filter keep_name l) = true.
Proof.
  induction 1 as [|x l Hx _ IH]; [reflexivity|]. cbn [List.filter].
  destruct (keep_name x) eqn:Hk; [|exact IH].
  cbn [forallb]. unfold name_ok at 1. now rewrite Hk, Hx, IH.
Qed.

Lemma path_wf_of_str s : path_wf (Path_of_str s) = true.
Proof.
  unfold path_wf, Path_of_str. cbn [path_root path_names].
  apply andb_true_iff. split.
  - destruct (root_of_cases s) as [-> | [-> | ->]]; reflexivity.
  - apply forallb_filter_names. now apply (split_go_fields "/").
Qed.

Lemma forallb_removelast {A} (P : A -> bool) (l : list A) :
  forallb P l = true -> forallb P (removelast l) = true.
Proof.
  induction l as [|x [|y l] IH]; [reflexivity | reflexivity |].
  intros [Hx Hl]%andb_true_iff. change (removelast (x :: y :: l)) with (x :: removelast (y :: l)).
  cbn [forallb]. now rewrite Hx, IH.
Qed.

Lemma path_wf_parent p : path_wf p = true -> path_wf (parent p) = true.
Proof.
  unfold path_wf, parent. cbn [path_root path_names].
  intros [-> Hn]%andb_true_iff. now rewrite forallb_removelast.
Qed.

Lemma path_wf_joinpath p s : path_wf p = true -> path_wf (joinpath p s) = true.
Proof.
  intros Hp. unfold joinpath.
  destruct (String.eqb (path_root (Path_of_str s)) ""); [|apply path_wf_of_str].
  pose proof (path_wf_of_str s) as Hs. unfold path_wf in *. cbn [path_root path_names].
  apply andb_true_iff in Hp as [-> Hn]. apply andb_true_iff in Hs as [_ Hs].
  now rewrite forallb_app, Hn, Hs.
Qed.

(** X15. Every path the code reads from the settings is in normal
    form, and so are the folders and files derived from it with
    [parent] and [joinpath]; writing such a path with the encoder and
    reading it with the hook gives it back, whatever string it was
    read from. *)
Theorem decoded_paths_stable (s : string) :
  _PathEncoder.decodePath [("_path", PStr s)] = Ret (PPath (Path_of_str s))
  /\ path_wf (Path_of_str s) = true
  /\ (forall p, path_wf p = true ->
        path_wf (parent p) = true /\ forall x, path_wf (joinpath p x) = true)
  /\ json_loads_hook _PathEncoder.decodePath (JsonDoc (tagged (PPath (Path_of_str s))))
     = Ret (PPath (Path_of_str s)).
Proof.
  split; [reflexivity | split; [apply path_wf_of_str | split]].
  - intros p Hp. split; [now apply path_wf_parent|].
    intros x. now apply path_wf_joinpath.
  - apply decode_tagged. apply path_wf_of_str.
Qed.

Lemma decoded_paths_stable_witness :
  path_wf (Path_of_str "//srv/./models//nnunet/") = true
  /\ path_wf (parent (Path_of_str "//srv/./models//nnunet/")) = true.
Proof.
  pose proof (decoded_paths_stable "//srv/./models//nnunet/") as (_ & Hwf & Hder & _).
  split; [exact Hwf | exact (proj1 (Hder _ Hwf))].
Defined.
